(** * The multimodal RAG chat page (home.py), both variants

    The repository holds two variants of one Streamlit page:
    [src/app/src/home.py] (module [App] below) and [src/src/home.py]
    (module [Src]).  A Streamlit script is re-run from top to bottom on
    every user action; what survives between runs is [st.session_state].
    One run is modelled as a computation over a [world] (session state,
    the files written under the data directory, and the trace of what the
    run did), given the values the widgets return in that run and the
    functions of the [utility] module, which is not part of the sources
    and is taken as a parameter. *)

From Stdlib Require Import ZArith QArith String Ascii.
From stdpp Require Import gmap strings list fin_maps.

Local Open Scope string_scope.
Local Open Scope list_scope.

(** ** Python values the page handles *)

(** A chat message, [{"role": ..., "content": ...}]. *)
Record message := Message { role : string; content : string }.

(** An uploaded file as [st.file_uploader] hands it over: [file.name] and
    the bytes [file.read()] gives. *)
Record uploaded_file := UploadedFile { name : string; read : list Byte.byte }.

(** Strings are byte strings here (UTF-8); [nl] is Python's ["\n"]. *)
Definition nl : string := String "010"%char EmptyString.

(** Python's [needle in hay] on [str]. *)
Fixpoint str_in (needle hay : string) : bool :=
  String.prefix needle hay ||
  match hay with
  | EmptyString => false
  | String _ rest => str_in needle rest
  end.

(** Truth value of [prompt := st.chat_input()]: [None] and the empty
    string are false. *)
Definition truthy (p : option string) : option string :=
  match p with
  | Some EmptyString => None
  | Some s => Some s
  | None => None
  end.

Definition greeting : list message :=
  [Message "assistant" "I am your assistant. How can I help today?"].

(** The text appended to every reply: ["\n\n ✒︎Content created by using: "]. *)
Definition created_by : string :=
  nl +:+ nl +:+ " ✒︎Content created by using: ".

(** ** What a run does: calls, output, ghost marks *)

(** The three branches at the bottom of the page. *)
Inductive handler := UpdateKB | Retrieval | Generation.

(** A call of a function of the [utility] module with its arguments. *)
Inductive call :=
| call_read_key_value (file key : string)
| call_empty_directory (path : string)
| call_bedrock_kb_injection (args : list string)
| call_bedrock_kb_retrieval (prompt model : string)
| call_bedrock_kb_retrieval_advanced
    (prompt model : string) (max_token : Z) (temperature top_p : Q)
    (top_k : Z) (stop_sequences : string)
| call_bedrock_textGen
    (model prompt : string) (max_token : Z) (temperature top_p : Q)
    (top_k : Z) (stop_sequences : string).

(** The name under which the page calls it. *)
Definition helper_name (c : call) : string :=
  match c with
  | call_read_key_value _ _ => "read_key_value"
  | call_empty_directory _ => "empty_directory"
  | call_bedrock_kb_injection _ => "bedrock_kb_injection"
  | call_bedrock_kb_retrieval _ _ => "bedrock_kb_retrieval"
  | call_bedrock_kb_retrieval_advanced _ _ _ _ _ _ _ =>
      "bedrock_kb_retrieval_advanced"
  | call_bedrock_textGen _ _ _ _ _ _ _ => "bedrock_textGen"
  end.

(** What a helper gave back. *)
Inductive retval :=
| RNone
| RStr (s : string)
| RTuple (ss : list string).

Inductive event :=
| Called (c : call) (r : retval)
| ChatWrite (who : string) (avatar : option string) (body : string)
| FileWrite (path : string) (data : list Byte.byte)
| Enter (h : handler).   (* ghost: control reached this branch *)

Record world := World {
  session_state : gmap string (list message);
  files : gmap string (list Byte.byte);
  trace : list event
}.

(** ** Computations that may raise *)

Inductive exn := AttributeError (attr : string).

Inductive result (A : Type) :=
| Ok (a : A) (w : world)
| Raise (e : exn) (w : world).
Arguments Ok {A} a w.
Arguments Raise {A} e w.

Definition M (A : Type) : Type := world -> result A.

Definition ret {A} (a : A) : M A := fun w => Ok a w.

Definition bind {A B} (k : A -> M B) (m : M A) : M B :=
  fun w => match m w with
           | Ok a w' => k a w'
           | Raise e w' => Raise e w'
           end.

(** [x ← m; k] and [m;; k] are stdpp's notations for [bind]. *)
#[global] Instance M_ret : MRet M := @ret.
#[global] Instance M_bind : MBind M := @bind.

Definition emit (e : event) : M unit :=
  fun w => Ok tt (World (session_state w) (files w) (trace w ++ [e])).

(** [for x in xs: body x] *)
Fixpoint for_each {A} (xs : list A) (body : A -> M unit) : M unit :=
  match xs with
  | [] => ret tt
  | x :: rest => body x;; for_each rest body
  end.

(** ** The parts of Streamlit the page uses *)

(** [st.session_state.messages]: raises when the key is absent. *)
Definition get_messages : M (list message) :=
  fun w => match session_state w !! "messages" with
           | Some ms => Ok ms w
           | None => Raise (AttributeError "messages") w
           end.

(** [st.session_state["messages"] = ms] *)
Definition set_messages (ms : list message) : M unit :=
  fun w => Ok tt (World (<["messages" := ms]> (session_state w))
                        (files w) (trace w)).

(** ["messages" not in st.session_state] *)
Definition messages_absent : M bool :=
  fun w => Ok (bool_decide (session_state w !! "messages" = None)) w.

(** [st.session_state.messages.clear()] *)
Definition messages_clear : M unit :=
  get_messages;; set_messages [].

(** [st.session_state.messages.append(m)] *)
Definition messages_append (m : message) : M unit :=
  ms ← get_messages; set_messages (ms ++ [m]).

(** [st.chat_message(who, avatar=a).write(body)] *)
Definition chat_write (who : string) (avatar : option string)
    (body : string) : M unit :=
  emit (ChatWrite who avatar body).

(** [with open(path, 'wb') as f: f.write(data)] *)
Definition write_file (path : string) (data : list Byte.byte) : M unit :=
  fun w => Ok tt (World (session_state w) (<[path := data]> (files w))
                        (trace w ++ [FileWrite path data])).

(** The values the widgets return in one run.  [upload_docs], [doc_urls]
    and [embedding_model_id] are only bound when the slider is on
    'Update'; the page reads them nowhere else. *)
Record widgets := Widgets {
  rag_on : string;
  upload_docs : list uploaded_file;
  doc_urls : string;
  embedding_model_id : string;
  option_ : string;               (* [option], the model id *)
  temperature : Q;
  max_token : Z;
  top_p : Q;
  top_k : Z;
  stop_sequences : string;
  clear_chat_history : bool;      (* [st.button("Clear Chat History")] *)
  chat_input : option string      (* [st.chat_input()] *)
}.

(** What the widget declarations promise about the returned values:
    the slider's [options], and [min_value]/[max_value] of each
    [st.number_input]. *)
Record widget_contract (w : widgets) : Prop := {
  rag_on_option : rag_on w ∈ ["None"; "Update"; "Retrieval"];
  temperature_min : (0 <= temperature w)%Q;
  temperature_max : (temperature w <= 1)%Q;
  max_token_min : (0 <= max_token w)%Z;
  top_p_min : (1 # 10 <= top_p w)%Q;
  top_k_min : (1 <= top_k w)%Z
}.

(** The sidebar's slider code, the same in both variants:
    [rag_update = rag_retrieval = False], then
    [if 'Update' in rag_on: ... rag_update = True]
    [elif 'Retrieval' in rag_on: rag_retrieval = True].
    Gives [(rag_update, rag_retrieval)]. *)
Definition rag_flags (rag_on : string) : bool * bool :=
  let rag_update := false in
  let rag_retrieval := false in
  if str_in "Update" rag_on then (true, rag_retrieval)
  else if str_in "Retrieval" rag_on then (rag_update, true)
  else (rag_update, rag_retrieval).

(** [if st.button("Clear Chat History"): ...], the same in both variants:
    [st.session_state.messages.clear()], then the assignment of a fresh
    greeting list.  The two locals set afterwards ([record_audio],
    [voice_prompt]) are read nowhere. *)
Definition clear_button (w : widgets) : M unit :=
  if clear_chat_history w then
    messages_clear;;
    set_messages greeting
  else mret tt.

(** [if "messages" not in st.session_state: ...] *)
Definition init_messages : M unit :=
  absent ← messages_absent;
  if absent : bool then set_messages greeting else mret tt.

(** [for msg in st.session_state.messages: st.chat_message(...).write(...)] *)
Definition show_history : M unit :=
  ms ← get_messages;
  for_each ms (fun msg => chat_write (role msg) None (content msg)).

(** ** Variant [src/app/src/home.py] *)

Module App.

(** The functions this variant takes from [utility], as the page calls
    them; each is assumed to return, with a value of the type the page
    uses it at.  [bedrock_kb_injection()] has no argument and gives a
    pair. *)
Record utility := Utility {
  u_read_key_value : string -> string -> string;
  u_bedrock_kb_injection : string * string;
  u_bedrock_kb_retrieval : string -> string -> string;
  u_bedrock_textGen :
    string -> string -> Z -> Q -> Q -> Z -> string -> string
}.

Section Page.
Variable u : utility.

Definition read_key_value (file key : string) : M string :=
  let r := u_read_key_value u file key in
  emit (Called (call_read_key_value file key) (RStr r));; mret r.

Definition bedrock_kb_injection : M (string * string) :=
  let r := u_bedrock_kb_injection u in
  emit (Called (call_bedrock_kb_injection []) (RTuple [r.1; r.2]));; mret r.

Definition bedrock_kb_retrieval (prompt model : string) : M string :=
  let r := u_bedrock_kb_retrieval u prompt model in
  emit (Called (call_bedrock_kb_retrieval prompt model) (RStr r));; mret r.

Definition bedrock_textGen (model prompt : string) (max_token : Z)
    (temperature top_p : Q) (top_k : Z) (stop_sequences : string)
    : M string :=
  let r := u_bedrock_textGen u model prompt max_token temperature top_p
             top_k stop_sequences in
  emit (Called (call_bedrock_textGen model prompt max_token temperature
                  top_p top_k stop_sequences) (RStr r));;
  mret r.

(** Lines 75-80. *)
Definition update_handler : M unit :=
  emit (Enter UpdateKB);;
  '(msg, status) ← bedrock_kb_injection;
  messages_append (Message "assistant" msg);;
  chat_write "ai" (Some "🎙️") msg.

(** Lines 108-117. *)
Definition retrieval_handler (w : widgets) : M unit :=
  emit (Enter Retrieval);;
  match truthy (chat_input w) with
  | Some prompt =>
      messages_append (Message "user" prompt);;
      chat_write "user" None prompt;;
      msg ← bedrock_kb_retrieval prompt (option_ w);
      let msg := msg +:+ (created_by +:+ option_ w) in
      messages_append (Message "assistant" msg);;
      chat_write "ai" (Some "🦙") msg
  | None => mret tt
  end.

(** Lines 119-127. *)
Definition generation_handler (w : widgets) : M unit :=
  emit (Enter Generation);;
  match truthy (chat_input w) with
  | Some prompt =>
      messages_append (Message "user" prompt);;
      chat_write "user" None prompt;;
      msg ← bedrock_textGen (option_ w) prompt (max_token w)
              (temperature w) (top_p w) (top_k w) (stop_sequences w);
      let msg := msg +:+ (created_by +:+ option_ w) in
      messages_append (Message "assistant" msg);;
      chat_write "ai" (Some "🦙") msg
  | None => mret tt
  end.

(** One run of the page. *)
Definition script (w : widgets) : M unit :=
  aoss_host ← read_key_value "./.aoss_config.txt" "AOSS_host_name";
  aoss_index ← read_key_value "./.aoss_config.txt" "AOSS_index_name";
  let '(rag_update, rag_retrieval) := rag_flags (rag_on w) in
  clear_button w;;
  init_messages;;
  show_history;;
  if rag_update then update_handler
  else if rag_retrieval then retrieval_handler w
  else generation_handler w.

(** A run starts with an empty trace. *)
Definition run (w : widgets) (ss : gmap string (list message))
    (fs : gmap string (list Byte.byte)) : result unit :=
  script w (World ss fs []).

(** The branch [h] of the page. *)
Definition handle (w : widgets) (h : handler) : M unit :=
  match h with
  | UpdateKB => update_handler
  | Retrieval => retrieval_handler w
  | Generation => generation_handler w
  end.

(** Closed form of a branch, proved equal to the code below: the
    messages it appends and the events it leaves. *)
Definition chat_reply (w : widgets) (h : handler) (prompt : string)
    : string :=
  match h with
  | Generation =>
      u_bedrock_textGen u (option_ w) prompt (max_token w) (temperature w)
        (top_p w) (top_k w) (stop_sequences w)
  | _ => u_bedrock_kb_retrieval u prompt (option_ w)
  end.

Definition chat_call (w : widgets) (h : handler) (prompt : string) : call :=
  match h with
  | Generation =>
      call_bedrock_textGen (option_ w) prompt (max_token w) (temperature w)
        (top_p w) (top_k w) (stop_sequences w)
  | _ => call_bedrock_kb_retrieval prompt (option_ w)
  end.

Definition handler_messages (w : widgets) (h : handler) : list message :=
  match h with
  | UpdateKB => [Message "assistant" (u_bedrock_kb_injection u).1]
  | _ =>
      match truthy (chat_input w) with
      | Some prompt =>
          [Message "user" prompt;
           Message "assistant"
             (chat_reply w h prompt +:+ (created_by +:+ option_ w))]
      | None => []
      end
  end.

Definition handler_events (w : widgets) (h : handler) : list event :=
  Enter h ::
  match h with
  | UpdateKB =>
      [Called (call_bedrock_kb_injection [])
         (RTuple [(u_bedrock_kb_injection u).1; (u_bedrock_kb_injection u).2]);
       ChatWrite "ai" (Some "🎙️") (u_bedrock_kb_injection u).1]
  | _ =>
      match truthy (chat_input w) with
      | Some prompt =>
          [ChatWrite "user" None prompt;
           Called (chat_call w h prompt) (RStr (chat_reply w h prompt));
           ChatWrite "ai" (Some "🦙")
             (chat_reply w h prompt +:+ (created_by +:+ option_ w))]
      | None => []
      end
  end.

(** The two reads of the configuration file at the top of the page. *)
Definition config_events : list event :=
  [Called (call_read_key_value "./.aoss_config.txt" "AOSS_host_name")
     (RStr (u_read_key_value u "./.aoss_config.txt" "AOSS_host_name"));
   Called (call_read_key_value "./.aoss_config.txt" "AOSS_index_name")
     (RStr (u_read_key_value u "./.aoss_config.txt" "AOSS_index_name"))].

End Page.
End App.

(** ** Variant [src/src/home.py] *)

Module Src.

Definition file_path : string := "./data/".

(** The functions this variant takes from [utility].  [empty_directory]
    acts on the files; [bedrock_kb_injection(file_path)] may read them and
    gives a triple, whose components are taken as formatted by the
    f-string. *)
Record utility := Utility {
  u_read_key_value : string -> string -> string;
  u_empty_directory :
    string -> gmap string (list Byte.byte) -> gmap string (list Byte.byte);
  u_bedrock_kb_injection :
    string -> gmap string (list Byte.byte) -> string * string * string;
  u_bedrock_kb_retrieval_advanced :
    string -> string -> Z -> Q -> Q -> Z -> string -> string;
  u_bedrock_textGen :
    string -> string -> Z -> Q -> Q -> Z -> string -> string
}.

Section Page.
Variable u : utility.

Definition read_key_value (file key : string) : M string :=
  let r := u_read_key_value u file key in
  emit (Called (call_read_key_value file key) (RStr r));; mret r.

Definition empty_directory (path : string) : M unit :=
  fun w => Ok tt (World (session_state w)
                        (u_empty_directory u path (files w))
                        (trace w ++ [Called (call_empty_directory path) RNone])).

Definition bedrock_kb_injection (path : string)
    : M (string * string * string) :=
  fun w =>
    let r := u_bedrock_kb_injection u path (files w) in
    (emit (Called (call_bedrock_kb_injection [path])
                  (RTuple [r.1.1; r.1.2; r.2]));; mret r) w.

Definition bedrock_kb_retrieval_advanced (prompt model : string)
    (max_token : Z) (temperature top_p : Q) (top_k : Z)
    (stop_sequences : string) : M string :=
  let r := u_bedrock_kb_retrieval_advanced u prompt model max_token
             temperature top_p top_k stop_sequences in
  emit (Called (call_bedrock_kb_retrieval_advanced prompt model max_token
                  temperature top_p top_k stop_sequences) (RStr r));;
  mret r.

Definition bedrock_textGen (model prompt : string) (max_token : Z)
    (temperature top_p : Q) (top_k : Z) (stop_sequences : string)
    : M string :=
  let r := u_bedrock_textGen u model prompt max_token temperature top_p
             top_k stop_sequences in
  emit (Called (call_bedrock_textGen model prompt max_token temperature
                  top_p top_k stop_sequences) (RStr r));;
  mret r.

(** Lines 76-88. *)
Definition update_handler (w : widgets) : M unit :=
  emit (Enter UpdateKB);;
  match upload_docs w with
  | [] => mret tt
  | _ :: _ =>
      empty_directory file_path;;
      let upload_doc_names := map name (upload_docs w) in
      for_each (upload_docs w) (fun upload_doc =>
        let bytes_data := read upload_doc in
        write_file (file_path +:+ name upload_doc) bytes_data);;
      '(stats, status, kb_id) ← bedrock_kb_injection file_path;
      let msg := "Total " +:+ stats
                 +:+ "  to Amazon Bedrock Knowledge Base: " +:+ kb_id
                 +:+ "  with status: " +:+ status +:+ "." in
      messages_append (Message "assistant" msg);;
      chat_write "ai" (Some "🎙️") msg
  end.

(** Lines 90-100. *)
Definition retrieval_handler (w : widgets) : M unit :=
  emit (Enter Retrieval);;
  match truthy (chat_input w) with
  | Some prompt =>
      messages_append (Message "user" prompt);;
      chat_write "user" None prompt;;
      msg ← bedrock_kb_retrieval_advanced prompt (option_ w) (max_token w)
              (temperature w) (top_p w) (top_k w) (stop_sequences w);
      let msg := msg +:+ (created_by +:+ option_ w) in
      messages_append (Message "assistant" msg);;
      chat_write "ai" (Some "🦙") msg
  | None => mret tt
  end.

(** Lines 102-110. *)
Definition generation_handler (w : widgets) : M unit :=
  emit (Enter Generation);;
  match truthy (chat_input w) with
  | Some prompt =>
      messages_append (Message "user" prompt);;
      chat_write "user" None prompt;;
      msg ← bedrock_textGen (option_ w) prompt (max_token w)
              (temperature w) (top_p w) (top_k w) (stop_sequences w);
      let msg := msg +:+ (created_by +:+ option_ w) in
      messages_append (Message "assistant" msg);;
      chat_write "ai" (Some "🦙") msg
  | None => mret tt
  end.

(** One run of the page. *)
Definition script (w : widgets) : M unit :=
  aoss_host ← read_key_value ".aoss_config.txt" "AOSS_host_name";
  aoss_index ← read_key_value ".aoss_config.txt" "AOSS_index_name";
  let '(rag_update, rag_retrieval) := rag_flags (rag_on w) in
  clear_button w;;
  init_messages;;
  show_history;;
  if rag_update then update_handler w
  else if rag_retrieval then retrieval_handler w
  else generation_handler w.

(** A run starts with an empty trace. *)
Definition run (w : widgets) (ss : gmap string (list message))
    (fs : gmap string (list Byte.byte)) : result unit :=
  script w (World ss fs []).

(** The branch [h] of the page. *)
Definition handle (w : widgets) (h : handler) : M unit :=
  match h with
  | UpdateKB => update_handler w
  | Retrieval => retrieval_handler w
  | Generation => generation_handler w
  end.

(** Closed form of a branch, proved equal to the code below: the files,
    the messages it appends and the events it leaves. *)
Definition staged (w : widgets) (fs : gmap string (list Byte.byte))
    : gmap string (list Byte.byte) :=
  foldl (fun fs f => <[file_path +:+ name f := read f]> fs)
        (u_empty_directory u file_path fs) (upload_docs w).

Definition injection_text (r : string * string * string) : string :=
  "Total " +:+ r.1.1 +:+ "  to Amazon Bedrock Knowledge Base: " +:+ r.2
  +:+ "  with status: " +:+ r.1.2 +:+ ".".

Definition chat_reply (w : widgets) (h : handler) (prompt : string)
    : string :=
  match h with
  | Generation =>
      u_bedrock_textGen u (option_ w) prompt (max_token w) (temperature w)
        (top_p w) (top_k w) (stop_sequences w)
  | _ =>
      u_bedrock_kb_retrieval_advanced u prompt (option_ w) (max_token w)
        (temperature w) (top_p w) (top_k w) (stop_sequences w)
  end.

Definition chat_call (w : widgets) (h : handler) (prompt : string) : call :=
  match h with
  | Generation =>
      call_bedrock_textGen (option_ w) prompt (max_token w) (temperature w)
        (top_p w) (top_k w) (stop_sequences w)
  | _ =>
      call_bedrock_kb_retrieval_advanced prompt (option_ w) (max_token w)
        (temperature w) (top_p w) (top_k w) (stop_sequences w)
  end.

Definition handler_files (w : widgets) (h : handler)
    (fs : gmap string (list Byte.byte)) : gmap string (list Byte.byte) :=
  match h, upload_docs w with
  | UpdateKB, _ :: _ => staged w fs
  | _, _ => fs
  end.

Definition handler_messages (w : widgets) (h : handler)
    (fs : gmap string (list Byte.byte)) : list message :=
  match h with
  | UpdateKB =>
      match upload_docs w with
      | [] => []
      | _ :: _ =>
          [Message "assistant"
             (injection_text (u_bedrock_kb_injection u file_path (staged w fs)))]
      end
  | _ =>
      match truthy (chat_input w) with
      | Some prompt =>
          [Message "user" prompt;
           Message "assistant"
             (chat_reply w h prompt +:+ (created_by +:+ option_ w))]
      | None => []
      end
  end.

Definition handler_events (w : widgets) (h : handler)
    (fs : gmap string (list Byte.byte)) : list event :=
  Enter h ::
  match h with
  | UpdateKB =>
      match upload_docs w with
      | [] => []
      | _ :: _ =>
          let r := u_bedrock_kb_injection u file_path (staged w fs) in
          Called (call_empty_directory file_path) RNone ::
          map (fun f => FileWrite (file_path +:+ name f) (read f))
              (upload_docs w) ++
          [Called (call_bedrock_kb_injection [file_path])
             (RTuple [r.1.1; r.1.2; r.2]);
           ChatWrite "ai" (Some "🎙️") (injection_text r)]
      end
  | _ =>
      match truthy (chat_input w) with
      | Some prompt =>
          [ChatWrite "user" None prompt;
           Called (chat_call w h prompt) (RStr (chat_reply w h prompt));
           ChatWrite "ai" (Some "🦙")
             (chat_reply w h prompt +:+ (created_by +:+ option_ w))]
      | None => []
      end
  end.

(** The two reads of the configuration file at the top of the page. *)
Definition config_events : list event :=
  [Called (call_read_key_value ".aoss_config.txt" "AOSS_host_name")
     (RStr (u_read_key_value u ".aoss_config.txt" "AOSS_host_name"));
   Called (call_read_key_value ".aoss_config.txt" "AOSS_index_name")
     (RStr (u_read_key_value u ".aoss_config.txt" "AOSS_index_name"))].

End Page.
End Src.

(** ** Observing a run *)

Definition result_world {A} (r : result A) : world :=
  match r with
  | Ok _ w => w
  | Raise _ w => w
  end.

(** The chat history a run leaves. *)
Definition result_messages {A} (r : result A) : option (list message) :=
  session_state (result_world r) !! "messages".

(** The helper calls of a trace, each with what it returned. *)
Definition called (t : list event) : list (call * retval) :=
  omap (fun e => match e with Called c r => Some (c, r) | _ => None end) t.

Definition calls (t : list event) : list call :=
  omap (fun e => match e with Called c _ => Some c | _ => None end) t.


Definition entered (t : list event) : list handler :=
  omap (fun e => match e with Enter h => Some h | _ => None end) t.

Definition file_writes (t : list event) : list (string * list Byte.byte) :=
  omap (fun e => match e with FileWrite p d => Some (p, d) | _ => None end) t.

(** How often the helper [name] was called. *)
Definition call_count (name : string) (t : list event) : nat :=
  length (filter (fun c => helper_name c = name) (calls t)).

(** What [show_history] writes for the history [ms]. *)
Definition history_events (ms : list message) : list event :=
  map (fun m => ChatWrite (role m) None (content m)) ms.

(** The branch the if/elif/else at the bottom of the page takes. *)
Definition dispatch (flags : bool * bool) : handler :=
  if flags.1 then UpdateKB else if flags.2 then Retrieval else Generation.

(** The history the branches see: after the button and the
    initialisation. *)
Definition base_messages (w : widgets) (ss : gmap string (list message))
    : list message :=
  if clear_chat_history w then greeting
  else default greeting (ss !! "messages").

(** Whether the button code raises: pressed while the session state has
    no 'messages'. *)
Definition clear_raises (w : widgets) (ss : gmap string (list message))
    : bool :=
  clear_chat_history w && bool_decide (ss !! "messages" = None).


(** The helper functions the specification lists. *)
Definition listed_helpers : list string :=
  ["read_key_value"; "bedrock_kb_injection"; "bedrock_kb_retrieval";
   "bedrock_textGen"; "empty_directory"].

(** The helper functions each variant calls. *)
Definition App_helpers : list string :=
  ["read_key_value"; "bedrock_kb_injection"; "bedrock_kb_retrieval";
   "bedrock_textGen"].

Definition Src_helpers : list string :=
  ["read_key_value"; "empty_directory"; "bedrock_kb_injection";
   "bedrock_kb_retrieval_advanced"; "bedrock_textGen"].

(** The branch the specification names for each position of the slider:
    update-knowledge-base on 'Update', retrieve on 'Retrieval', generate
    otherwise. *)
Definition mode_handler (mode : string) : handler :=
  if String.eqb mode "Update" then UpdateKB
  else if String.eqb mode "Retrieval" then Retrieval
  else Generation.

(** The helpers that reach the hosted service or the data directory. *)
Definition remote_helpers : list string :=
  ["bedrock_kb_injection"; "bedrock_kb_retrieval";
   "bedrock_kb_retrieval_advanced"; "bedrock_textGen"; "empty_directory"].

(** ** Comparing the variants *)


(** ** Sample inputs *)

(** The widgets at their declared defaults, but for the slider, the
    uploads, the button and the chat box. *)
Definition sample_widgets (mode : string) (docs : list uploaded_file)
    (clear : bool) (prompt : option string) : widgets :=
  Widgets mode docs "" "amazon.titan-embed-image-v1"
    "anthropic.claude-3-haiku-20240307-v1:0"
    (1 # 10) 1024 (85 # 100) 40 (nl +:+ nl +:+ "Human") clear prompt.

Definition App_sample : App.utility :=
  App.Utility (fun _ key => key)
    ("Total 3 documents  to Amazon Bedrock Knowledge Base: KB1  with status: COMPLETE.",
     "COMPLETE")
    (fun prompt _ => "found: " +:+ prompt)
    (fun _ prompt _ _ _ _ _ => "echo: " +:+ prompt).

Definition Src_sample : Src.utility :=
  Src.Utility (fun _ key => key)
    (fun _ _ => ∅)
    (fun _ _ => ("3 documents", "COMPLETE", "KB1"))
    (fun prompt _ _ _ _ _ _ => "found: " +:+ prompt)
    (fun _ prompt _ _ _ _ _ => "echo: " +:+ prompt).

(** A prompt typed with the slider on 'None'. *)
Definition sample_chat : widgets :=
  sample_widgets "None" [] false (Some "hello").


(** The slider on 'Update' with nothing uploaded. *)
Definition sample_update : widgets :=
  sample_widgets "Update" [] false None.

Definition sample_history : gmap string (list message) :=
  {["messages" := greeting ++ [Message "user" "hello";
                               Message "assistant" "hi"]]}.

(** ** Further observations *)

(** The texts a run writes to the chat, in order. *)
Definition written (t : list event) : list string :=
  omap (fun e => match e with ChatWrite _ _ body => Some body | _ => None end)
       t.

(** [needle] occurs somewhere in [hay]. *)
Definition occurs (needle hay : string) : Prop :=
  exists pre post, hay = pre +:+ needle +:+ post.




(** As [App_sample], but with other values in the configuration file. *)
Definition App_sample_config : App.utility :=
  App.Utility (fun _ _ => "elsewhere")
    (App.u_bedrock_kb_injection App_sample)
    (App.u_bedrock_kb_retrieval App_sample)
    (App.u_bedrock_textGen App_sample).


(** * Properties *)

(** ** Stepping through the code *)

Ltac unfold_page :=
  unfold messages_append, messages_clear, chat_write;
  unfold mbind, M_bind, bind, mret, M_ret, ret, emit, set_messages,
    messages_absent, get_messages, write_file.

Ltac step :=
  repeat (cbn [session_state files trace fst snd]
          || rewrite lookup_insert_eq
          || rewrite insert_insert_eq
          || rewrite <- app_assoc).

Lemma for_each_emit {A} (f : A -> event) (xs : list A) ss fs tr :
  for_each xs (fun x => emit (f x)) (World ss fs tr)
  = Ok tt (World ss fs (tr ++ map f xs)).
Proof.
  revert tr. induction xs as [|x xs IH]; intros tr; cbn [for_each map].
  - by rewrite app_nil_r.
  - unfold_page. step. rewrite IH. by step.
Qed.

Lemma show_history_run ss fs tr ms :
  ss !! "messages" = Some ms ->
  show_history (World ss fs tr)
  = Ok tt (World ss fs
             (tr ++ map (fun m => ChatWrite (role m) None (content m)) ms)).
Proof.
  intros Hms. unfold show_history, get_messages, chat_write.
  unfold mbind, M_bind, bind. step. rewrite Hms. apply for_each_emit.
Qed.

Lemma clear_button_run w ss fs tr ms :
  ss !! "messages" = Some ms ->
  clear_button w (World ss fs tr)
  = Ok tt (World (<["messages" := base_messages w ss]> ss) fs tr).
Proof.
  intros Hms. unfold clear_button, base_messages.
  destruct (clear_chat_history w); unfold_page; step; rewrite Hms; step.
  - done.
  - cbn. by rewrite insert_id.
Qed.

Lemma clear_button_absent w ss fs tr :
  ss !! "messages" = None ->
  clear_button w (World ss fs tr)
  = if clear_chat_history w
    then Raise (AttributeError "messages") (World ss fs tr)
    else Ok tt (World ss fs tr).
Proof.
  intros Hms. unfold clear_button.
  destruct (clear_chat_history w); unfold_page; step; by rewrite ?Hms.
Qed.

Lemma init_messages_run ss fs tr :
  init_messages (World ss fs tr)
  = Ok tt (World (<["messages" := default greeting (ss !! "messages")]> ss)
                 fs tr).
Proof.
  unfold init_messages. unfold_page. step.
  destruct (ss !! "messages") as [ms|] eqn:Hms; cbn.
  - by rewrite insert_id.
  - done.
Qed.

(** ** Closed form of the branches *)

Lemma App_handle_run u w h (ss : gmap string (list message)) fs tr ms :
  ss !! "messages" = Some ms ->
  App.handle u w h (World ss fs tr)
  = Ok tt (World (<["messages" := ms ++ App.handler_messages u w h]> ss) fs
                 (tr ++ App.handler_events u w h)).
Proof.
  intros Hms.
  unfold App.handle, App.handler_messages, App.handler_events.
  destruct h;
    unfold App.update_handler, App.retrieval_handler, App.generation_handler,
      App.bedrock_kb_injection, App.bedrock_kb_retrieval, App.bedrock_textGen;
    try destruct (truthy (chat_input w)) as [prompt|];
    try destruct (App.u_bedrock_kb_injection u) as [msg status];
    unfold_page; step; rewrite ?Hms; step;
    rewrite ?app_nil_r, ?insert_id by done; reflexivity.
Qed.

Lemma for_each_write_file (docs : list uploaded_file) ss fs tr :
  for_each docs (fun upload_doc =>
    let bytes_data := read upload_doc in
    write_file (Src.file_path +:+ name upload_doc) bytes_data)
    (World ss fs tr)
  = Ok tt (World ss
             (foldl (fun fs f => <[Src.file_path +:+ name f := read f]> fs)
                    fs docs)
             (tr ++ map (fun f => FileWrite (Src.file_path +:+ name f)
                                            (read f)) docs)).
Proof.
  revert fs tr. induction docs as [|d docs IH]; intros fs tr;
    cbn [for_each map foldl].
  - by rewrite app_nil_r.
  - unfold_page. step. rewrite IH. by step.
Qed.

Lemma Src_handle_run u w h (ss : gmap string (list message)) fs tr ms :
  ss !! "messages" = Some ms ->
  Src.handle u w h (World ss fs tr)
  = Ok tt (World (<["messages" := ms ++ Src.handler_messages u w h fs]> ss)
                 (Src.handler_files u w h fs)
                 (tr ++ Src.handler_events u w h fs)).
Proof.
  intros Hms.
  unfold Src.handle, Src.handler_messages, Src.handler_events,
    Src.handler_files.
  destruct h.
  - unfold Src.update_handler.
    destruct (upload_docs w) as [|d docs] eqn:Hdocs.
    + unfold_page; step. by rewrite app_nil_r, insert_id.
    + unfold Src.empty_directory, Src.bedrock_kb_injection.
      unfold mbind, M_bind, bind, emit at 1. step.
      rewrite for_each_write_file. step.
      unfold Src.staged, Src.injection_text. rewrite Hdocs.
      destruct (Src.u_bedrock_kb_injection u _ _) as [[stats status] kb_id].
      unfold_page; step; rewrite ?Hms; step. reflexivity.
  - unfold Src.retrieval_handler, Src.bedrock_kb_retrieval_advanced.
    destruct (truthy (chat_input w)) as [prompt|], (upload_docs w);
      unfold_page; step; rewrite ?Hms; step;
      rewrite ?app_nil_r, ?insert_id by done; reflexivity.
  - unfold Src.generation_handler, Src.bedrock_textGen.
    destruct (truthy (chat_input w)) as [prompt|], (upload_docs w);
      unfold_page; step; rewrite ?Hms; step;
      rewrite ?app_nil_r, ?insert_id by done; reflexivity.
Qed.

(** ** Closed form of a run *)

Lemma bind_ok {A B} (m : M A) (k : A -> M B) W a W' :
  m W = Ok a W' -> (m ≫= k) W = k a W'.
Proof. intros H. unfold mbind, M_bind, bind. by rewrite H. Qed.

Lemma bind_raise {A B} (m : M A) (k : A -> M B) W e W' :
  m W = Raise e W' -> (m ≫= k) W = Raise e W'.
Proof. intros H. unfold mbind, M_bind, bind. by rewrite H. Qed.

Lemma bind_prelude {A} (a b c : M unit) (k : M A) W :
  (a;; b;; c;; k) W = ((a;; b;; c);; k) W.
Proof.
  unfold mbind, M_bind, bind.
  destruct (a W) as [[] W1|]; [|done].
  destruct (b W1) as [[] W2|]; [|done].
  by destruct (c W2).
Qed.

Lemma prelude_run w (ss : gmap string (list message)) fs tr :
  (clear_chat_history w = true -> is_Some (ss !! "messages")) ->
  (clear_button w;; init_messages;; show_history) (World ss fs tr)
  = Ok tt (World (<["messages" := base_messages w ss]> ss) fs
                 (tr ++ history_events (base_messages w ss))).
Proof.
  intros Hrun. unfold mbind, M_bind, bind.
  destruct (ss !! "messages") as [ms|] eqn:Hms.
  - rewrite (clear_button_run _ _ _ _ ms Hms), init_messages_run.
    step. cbn [default]. step.
    by rewrite (show_history_run _ _ _ (base_messages w ss)), ?Hms
      by apply lookup_insert_eq.
  - rewrite clear_button_absent by done.
    destruct (clear_chat_history w) eqn:Hclear.
    + destruct (Hrun eq_refl) as [? [=]].
    + rewrite init_messages_run, Hms. cbn [default].
      rewrite (show_history_run _ _ _ greeting) by apply lookup_insert_eq.
      unfold base_messages. by rewrite Hclear, Hms.
Qed.

Lemma App_run_ok u w (ss : gmap string (list message)) fs :
  (clear_chat_history w = true -> is_Some (ss !! "messages")) ->
  App.run u w ss fs
  = let h := dispatch (rag_flags (rag_on w)) in
    Ok tt (World (<["messages" := base_messages w ss
                                   ++ App.handler_messages u w h]> ss) fs
             (App.config_events u ++ history_events (base_messages w ss)
              ++ App.handler_events u w h)).
Proof.
  intros Hrun. unfold App.run, App.script.
  do 2 (erewrite bind_ok; [|reflexivity]).
  pose proof (App_handle_run u w (dispatch (rag_flags (rag_on w)))) as Hh.
  destruct (rag_flags (rag_on w)) as [rag_update rag_retrieval].
  rewrite bind_prelude.
  erewrite bind_ok; [|by apply prelude_run].
  cbv zeta.
  trans (App.handle u w (dispatch (rag_update, rag_retrieval))
           (World (<["messages" := base_messages w ss]> ss) fs
              (App.config_events u ++ history_events (base_messages w ss)))).
  { by destruct rag_update, rag_retrieval. }
  rewrite (Hh _ _ _ (base_messages w ss)) by apply lookup_insert_eq.
  by step.
Qed.

Lemma App_run_raise u w (ss : gmap string (list message)) fs :
  clear_chat_history w = true -> ss !! "messages" = None ->
  App.run u w ss fs
  = Raise (AttributeError "messages") (World ss fs (App.config_events u)).
Proof.
  intros Hclear Hms. unfold App.run, App.script.
  do 2 (erewrite bind_ok; [|reflexivity]).
  destruct (rag_flags (rag_on w)) as [rag_update rag_retrieval].
  erewrite bind_raise; [done|].
  by rewrite clear_button_absent, Hclear.
Qed.

Lemma Src_run_ok u w (ss : gmap string (list message)) fs :
  (clear_chat_history w = true -> is_Some (ss !! "messages")) ->
  Src.run u w ss fs
  = let h := dispatch (rag_flags (rag_on w)) in
    Ok tt (World (<["messages" := base_messages w ss
                                   ++ Src.handler_messages u w h fs]> ss)
             (Src.handler_files u w h fs)
             (Src.config_events u ++ history_events (base_messages w ss)
              ++ Src.handler_events u w h fs)).
Proof.
  intros Hrun. unfold Src.run, Src.script.
  do 2 (erewrite bind_ok; [|reflexivity]).
  pose proof (Src_handle_run u w (dispatch (rag_flags (rag_on w)))) as Hh.
  destruct (rag_flags (rag_on w)) as [rag_update rag_retrieval].
  rewrite bind_prelude.
  erewrite bind_ok; [|by apply prelude_run].
  cbv zeta.
  trans (Src.handle u w (dispatch (rag_update, rag_retrieval))
           (World (<["messages" := base_messages w ss]> ss) fs
              (Src.config_events u ++ history_events (base_messages w ss)))).
  { by destruct rag_update, rag_retrieval. }
  rewrite (Hh _ _ _ (base_messages w ss)) by apply lookup_insert_eq.
  by step.
Qed.

Lemma Src_run_raise u w (ss : gmap string (list message)) fs :
  clear_chat_history w = true -> ss !! "messages" = None ->
  Src.run u w ss fs
  = Raise (AttributeError "messages") (World ss fs (Src.config_events u)).
Proof.
  intros Hclear Hms. unfold Src.run, Src.script.
  do 2 (erewrite bind_ok; [|reflexivity]).
  destruct (rag_flags (rag_on w)) as [rag_update rag_retrieval].
  erewrite bind_raise; [done|].
  by rewrite clear_button_absent, Hclear.
Qed.

(** ** Reading traces *)

Lemma omap_map_None {A B C} (f : A -> B) (g : B -> option C) (xs : list A) :
  (forall x, g (f x) = None) -> omap g (map f xs) = [].
Proof.
  intros Hg. induction xs as [|x xs IH]; [done|].
  cbn [map]. cbn. by rewrite Hg.
Qed.

Lemma entered_app t1 t2 : entered (t1 ++ t2) = entered t1 ++ entered t2.
Proof. apply omap_app. Qed.

Lemma calls_app t1 t2 : calls (t1 ++ t2) = calls t1 ++ calls t2.
Proof. apply omap_app. Qed.

Lemma entered_history ms : entered (history_events ms) = [].
Proof. by apply omap_map_None. Qed.

Lemma calls_history ms : calls (history_events ms) = [].
Proof. by apply omap_map_None. Qed.

Lemma App_entered_handler u w h : entered (App.handler_events u w h) = [h].
Proof.
  unfold App.handler_events.
  by destruct h, (truthy (chat_input w)).
Qed.

Lemma Src_entered_handler u w h fs :
  entered (Src.handler_events u w h fs) = [h].
Proof.
  unfold Src.handler_events.
  destruct h, (truthy (chat_input w)), (upload_docs w) as [|d docs];
    try done.
  all: cbn; rewrite entered_app; unfold entered at 1;
    by rewrite omap_map_None.
Qed.

Lemma rag_flags_exclusive mode :
  (rag_flags mode).1 && (rag_flags mode).2 = false.
Proof.
  unfold rag_flags.
  by destruct (str_in "Update" mode), (str_in "Retrieval" mode).
Qed.

Lemma dispatch_mode mode :
  mode ∈ ["None"; "Update"; "Retrieval"] ->
  dispatch (rag_flags mode) = mode_handler mode.
Proof.
  intros Hmode. repeat (apply elem_of_cons in Hmode as [->|Hmode]);
    [done..|]. by apply elem_of_nil in Hmode.
Qed.

(** ** The claims *)

(** C1: for every position of the slider ('None', 'Update', 'Retrieval')
    at most one of [rag_update] and [rag_retrieval] is set, and a run of
    either variant enters exactly one of the three branches: the
    update-knowledge-base branch on 'Update', the retrieval branch on
    'Retrieval', the generation branch on 'None'. *)
Theorem C1_one_handler_per_run ua us w
    (ss : gmap string (list message)) fs :
  rag_on w ∈ ["None"; "Update"; "Retrieval"] ->
  (clear_chat_history w = true -> is_Some (ss !! "messages")) ->
  (rag_flags (rag_on w)).1 && (rag_flags (rag_on w)).2 = false
  /\ (exists wa, App.run ua w ss fs = Ok tt wa
                 /\ entered (trace wa) = [mode_handler (rag_on w)])
  /\ (exists ws, Src.run us w ss fs = Ok tt ws
                 /\ entered (trace ws) = [mode_handler (rag_on w)]).
Proof.
  intros Hmode Hrun. split; [apply rag_flags_exclusive|].
  rewrite <- (dispatch_mode _ Hmode).
  rewrite App_run_ok, Src_run_ok by done. cbv zeta.
  split; (eexists; split; [reflexivity|]);
    cbn [trace]; rewrite !entered_app, entered_history.
  - by rewrite App_entered_handler.
  - by rewrite Src_entered_handler.
Qed.

Lemma C1_witness :
  (exists wa, App.run App_sample
                (sample_widgets "Retrieval" [] true (Some "hello"))
                sample_history ∅ = Ok tt wa
              /\ entered (trace wa)
                 = [mode_handler
                      (rag_on (sample_widgets "Retrieval" [] true
                                 (Some "hello")))])
  /\ (exists ws, Src.run Src_sample
                   (sample_widgets "Retrieval" [] true (Some "hello"))
                   sample_history ∅ = Ok tt ws
                 /\ entered (trace ws)
                    = [mode_handler
                         (rag_on (sample_widgets "Retrieval" [] true
                                    (Some "hello")))]).
Proof.
  refine (proj2 (C1_one_handler_per_run App_sample Src_sample
                   (sample_widgets "Retrieval" [] true (Some "hello"))
                   sample_history ∅ _ _)).
  - cbn. apply list_elem_of_further, list_elem_of_further, list_elem_of_here.
  - intros _. eexists. vm_compute. reflexivity.
Defined.

Lemma App_run_messages u w (ss : gmap string (list message)) fs :
  (clear_chat_history w = true -> is_Some (ss !! "messages")) ->
  result_messages (App.run u w ss fs)
  = Some (base_messages w ss
          ++ App.handler_messages u w (dispatch (rag_flags (rag_on w)))).
Proof.
  intros Hrun. rewrite App_run_ok by done.
  unfold result_messages. cbn. apply lookup_insert_eq.
Qed.

Lemma Src_run_messages u w (ss : gmap string (list message)) fs :
  (clear_chat_history w = true -> is_Some (ss !! "messages")) ->
  result_messages (Src.run u w ss fs)
  = Some (base_messages w ss
          ++ Src.handler_messages u w (dispatch (rag_flags (rag_on w))) fs).
Proof.
  intros Hrun. rewrite Src_run_ok by done.
  unfold result_messages. cbn. apply lookup_insert_eq.
Qed.













(** ** The trace of a run *)

Lemma clear_raises_cases w (ss : gmap string (list message)) :
  (clear_raises w ss = false
   /\ (clear_chat_history w = true -> is_Some (ss !! "messages")))
  \/ (clear_raises w ss = true
      /\ clear_chat_history w = true /\ ss !! "messages" = None).
Proof.
  unfold clear_raises.
  destruct (clear_chat_history w); [|by left].
  destruct (ss !! "messages") as [ms|] eqn:Hms.
  - left. split; [done|eauto].
  - by right.
Qed.

Lemma App_run_trace u w (ss : gmap string (list message)) fs :
  trace (result_world (App.run u w ss fs))
  = App.config_events u
    ++ if clear_raises w ss then []
       else history_events (base_messages w ss)
            ++ App.handler_events u w (dispatch (rag_flags (rag_on w))).
Proof.
  destruct (clear_raises_cases w ss) as [[-> Hrun]|(-> & Hclear & Hms)].
  - by rewrite App_run_ok.
  - rewrite App_run_raise by done. by rewrite app_nil_r.
Qed.

Lemma Src_run_trace u w (ss : gmap string (list message)) fs :
  trace (result_world (Src.run u w ss fs))
  = Src.config_events u
    ++ if clear_raises w ss then []
       else history_events (base_messages w ss)
            ++ Src.handler_events u w (dispatch (rag_flags (rag_on w))) fs.
Proof.
  destruct (clear_raises_cases w ss) as [[-> Hrun]|(-> & Hclear & Hms)].
  - by rewrite Src_run_ok.
  - rewrite Src_run_raise by done. by rewrite app_nil_r.
Qed.

Lemma App_calls_handler u w h :
  calls (App.handler_events u w h)
  = match h with
    | UpdateKB => [call_bedrock_kb_injection []]
    | _ => match truthy (chat_input w) with
           | Some prompt => [App.chat_call w h prompt]
           | None => []
           end
    end.
Proof.
  unfold App.handler_events. by destruct h, (truthy (chat_input w)).
Qed.

Lemma Src_calls_handler u w h fs :
  calls (Src.handler_events u w h fs)
  = match h with
    | UpdateKB =>
        match upload_docs w with
        | [] => []
        | _ :: _ => [call_empty_directory Src.file_path;
                     call_bedrock_kb_injection [Src.file_path]]
        end
    | _ => match truthy (chat_input w) with
           | Some prompt => [Src.chat_call w h prompt]
           | None => []
           end
    end.
Proof.
  unfold Src.handler_events.
  destruct h, (truthy (chat_input w)), (upload_docs w) as [|d docs];
    try done.
  all: cbn; rewrite calls_app; unfold calls at 1;
    by rewrite omap_map_None.
Qed.

Lemma App_run_calls u w (ss : gmap string (list message)) fs :
  calls (trace (result_world (App.run u w ss fs)))
  = [call_read_key_value "./.aoss_config.txt" "AOSS_host_name";
     call_read_key_value "./.aoss_config.txt" "AOSS_index_name"]
    ++ if clear_raises w ss then []
       else calls (App.handler_events u w (dispatch (rag_flags (rag_on w)))).
Proof.
  rewrite App_run_trace, calls_app. f_equal.
  destruct (clear_raises w ss); [done|].
  by rewrite calls_app, calls_history.
Qed.

Lemma Src_run_calls u w (ss : gmap string (list message)) fs :
  calls (trace (result_world (Src.run u w ss fs)))
  = [call_read_key_value ".aoss_config.txt" "AOSS_host_name";
     call_read_key_value ".aoss_config.txt" "AOSS_index_name"]
    ++ if clear_raises w ss then []
       else calls (Src.handler_events u w (dispatch (rag_flags (rag_on w)))
                     fs).
Proof.
  rewrite Src_run_trace, calls_app. f_equal.
  destruct (clear_raises w ss); [done|].
  by rewrite calls_app, calls_history.
Qed.

Lemma omap_map_Some {A B C} (f : A -> B) (g : B -> option C) (k : A -> C)
    (xs : list A) :
  (forall x, g (f x) = Some (k x)) -> omap g (map f xs) = map k xs.
Proof.
  intros Hg. induction xs as [|x xs IH]; [done|].
  cbn [map]. cbn. by rewrite Hg, IH.
Qed.

Lemma file_writes_app t1 t2 :
  file_writes (t1 ++ t2) = file_writes t1 ++ file_writes t2.
Proof. apply omap_app. Qed.

Lemma file_writes_history ms : file_writes (history_events ms) = [].
Proof. by apply omap_map_None. Qed.

Lemma App_run_file_writes u w (ss : gmap string (list message)) fs :
  file_writes (trace (result_world (App.run u w ss fs))) = [].
Proof.
  rewrite App_run_trace, file_writes_app.
  destruct (clear_raises w ss); [done|].
  rewrite file_writes_app, file_writes_history.
  unfold App.handler_events.
  by destruct (dispatch _), (truthy (chat_input w)).
Qed.

Lemma Src_run_file_writes u w (ss : gmap string (list message)) fs :
  exists docs,
    (docs = [] \/ docs = upload_docs w)
    /\ file_writes (trace (result_world (Src.run u w ss fs)))
       = map (fun f => (Src.file_path +:+ name f, read f)) docs.
Proof.
  rewrite Src_run_trace, file_writes_app.
  destruct (clear_raises w ss); [exists []; eauto|].
  rewrite file_writes_app, file_writes_history.
  unfold Src.handler_events.
  destruct (dispatch _), (truthy (chat_input w)),
    (upload_docs w) as [|d docs] eqn:Hdocs;
    try (exists []; split; [by left|done]).
  all: exists (d :: docs); split; [by right|].
  all: cbn; rewrite file_writes_app; unfold file_writes at 1.
  all: by rewrite (omap_map_Some _ _
                     (fun f => (Src.file_path +:+ name f, read f))),
         app_nil_r.
Qed.

Ltac in_list :=
  repeat first [apply list_elem_of_here | apply list_elem_of_further].

Lemma helper_name_in (names : list string) (cs : list call) (c : call) :
  Forall (fun c => helper_name c ∈ names) cs -> c ∈ cs ->
  helper_name c ∈ names.
Proof. intros Hall Hc. by apply (proj1 (Forall_forall _ _) Hall). Qed.

(** C4, as the code has it: every call either variant makes goes to one
    of [read_key_value], [bedrock_kb_injection], [bedrock_kb_retrieval],
    [bedrock_kb_retrieval_advanced], [bedrock_textGen] and
    [empty_directory] ([src/app] to the first, second, third and fifth,
    [src/src] to all but the third); besides these calls and what it
    writes to the chat, a run only stores uploaded files byte for byte
    under the data directory ([src/src]) or touches no file
    ([src/app]). *)
Theorem C4_only_utility_helpers ua us w
    (ss : gmap string (list message)) fs :
  (forall c, c ∈ calls (trace (result_world (App.run ua w ss fs))) ->
             helper_name c ∈ App_helpers)
  /\ (forall c, c ∈ calls (trace (result_world (Src.run us w ss fs))) ->
                helper_name c ∈ Src_helpers)
  /\ (forall name, name ∈ App_helpers ++ Src_helpers ->
                   name ∈ listed_helpers ++ ["bedrock_kb_retrieval_advanced"])
  /\ file_writes (trace (result_world (App.run ua w ss fs))) = []
  /\ (forall path data,
        (path, data) ∈ file_writes (trace (result_world (Src.run us w ss fs)))
        -> exists f, f ∈ upload_docs w
                     /\ path = Src.file_path +:+ name f /\ data = read f).
Proof.
  split; [|split; [|split; [|split]]].
  - intros c. rewrite App_run_calls, App_calls_handler.
    apply helper_name_in.
    destruct (clear_raises w ss), (dispatch (rag_flags (rag_on w))), (truthy (chat_input w));
      cbn; repeat constructor; unfold App_helpers; in_list.
  - intros c. rewrite Src_run_calls, Src_calls_handler.
    apply helper_name_in.
    destruct (clear_raises w ss), (dispatch (rag_flags (rag_on w))), (truthy (chat_input w)),
      (upload_docs w);
      cbn; repeat constructor; unfold Src_helpers; in_list.
  - intros name Hin. unfold App_helpers, Src_helpers in Hin.
    cbn [app] in Hin. unfold listed_helpers. cbn [app].
    repeat (apply elem_of_cons in Hin as [->|Hin]); [in_list..|].
    by apply elem_of_nil in Hin.
  - apply App_run_file_writes.
  - intros path data.
    destruct (Src_run_file_writes us w ss fs) as (docs & Hdocs & ->).
    intros Hin. apply list_elem_of_In, in_map_iff in Hin as (f & [= <- <-] & Hf).
    exists f. split; [|done]. apply list_elem_of_In.
    destruct Hdocs as [->| ->]; [done|done].
Qed.

(** C4 as the specification words it fails: in retrieval mode [src/src]
    calls [bedrock_kb_retrieval_advanced], which is not among the five
    helpers listed. *)
Lemma C4_counterexample :
  calls (trace (result_world
           (Src.run Src_sample
              (sample_widgets "Retrieval" [] false (Some "hello")) ∅ ∅)))
  = [call_read_key_value ".aoss_config.txt" "AOSS_host_name";
     call_read_key_value ".aoss_config.txt" "AOSS_index_name";
     call_bedrock_kb_retrieval_advanced "hello"
       "anthropic.claude-3-haiku-20240307-v1:0" 1024 (1 # 10) (85 # 100) 40
       (nl +:+ nl +:+ "Human")]
  /\ helper_name
       (call_bedrock_kb_retrieval_advanced "hello"
          "anthropic.claude-3-haiku-20240307-v1:0" 1024 (1 # 10) (85 # 100) 40
          (nl +:+ nl +:+ "Human"))
     ∉ listed_helpers.
Proof.
  split; [vm_compute; reflexivity|].
  cbn [helper_name]. unfold listed_helpers. intros Hin.
  repeat (apply elem_of_cons in Hin as [[=]|Hin]).
  by apply elem_of_nil in Hin.
Qed.

(** ** Chat turns *)

Lemma App_chat_run u w (ss : gmap string (list message)) fs h prompt :
  (clear_chat_history w = true -> is_Some (ss !! "messages")) ->
  dispatch (rag_flags (rag_on w)) = h -> h <> UpdateKB ->
  truthy (chat_input w) = Some prompt ->
  let text := App.chat_reply u w h prompt +:+ (created_by +:+ option_ w) in
  App.run u w ss fs
  = Ok tt (World (<["messages" := base_messages w ss
                     ++ [Message "user" prompt; Message "assistant" text]]> ss)
             fs
             (App.config_events u ++ history_events (base_messages w ss)
              ++ [Enter h; ChatWrite "user" None prompt;
                  Called (App.chat_call w h prompt)
                    (RStr (App.chat_reply u w h prompt));
                  ChatWrite "ai" (Some "🦙") text])).
Proof.
  intros Hrun Hmode Hh Hprompt. rewrite App_run_ok by done. cbv zeta.
  rewrite Hmode. unfold App.handler_messages, App.handler_events.
  rewrite Hprompt. by destruct h.
Qed.

Lemma Src_chat_run u w (ss : gmap string (list message)) fs h prompt :
  (clear_chat_history w = true -> is_Some (ss !! "messages")) ->
  dispatch (rag_flags (rag_on w)) = h -> h <> UpdateKB ->
  truthy (chat_input w) = Some prompt ->
  let text := Src.chat_reply u w h prompt +:+ (created_by +:+ option_ w) in
  Src.run u w ss fs
  = Ok tt (World (<["messages" := base_messages w ss
                     ++ [Message "user" prompt; Message "assistant" text]]> ss)
             fs
             (Src.config_events u ++ history_events (base_messages w ss)
              ++ [Enter h; ChatWrite "user" None prompt;
                  Called (Src.chat_call w h prompt)
                    (RStr (Src.chat_reply u w h prompt));
                  ChatWrite "ai" (Some "🦙") text])).
Proof.
  intros Hrun Hmode Hh Hprompt. rewrite Src_run_ok by done. cbv zeta.
  rewrite Hmode.
  unfold Src.handler_messages, Src.handler_events, Src.handler_files.
  rewrite Hprompt. by destruct h.
Qed.

Lemma last_chat_event (t : list event) (e1 e2 e3 e4 : event) :
  last (t ++ [e1; e2; e3; e4]) = Some e4.
Proof. by rewrite last_app. Qed.

(** C5: in retrieval and in generation mode, for every prompt that is
    submitted, the assistant message put into session state, and the text
    written to the chat, is what the helper returned followed by
    ["\n\n ✒︎Content created by using: "] and the selected model id. *)
Theorem C5_reply_names_model ua us w
    (ss : gmap string (list message)) fs prompt :
  (clear_chat_history w = true -> is_Some (ss !! "messages")) ->
  truthy (chat_input w) = Some prompt ->
  (dispatch (rag_flags (rag_on w)) = Retrieval ->
   let text_a :=
     App.u_bedrock_kb_retrieval ua prompt (option_ w)
     +:+ (created_by +:+ option_ w) in
   let text_s :=
     Src.u_bedrock_kb_retrieval_advanced us prompt (option_ w) (max_token w)
       (temperature w) (top_p w) (top_k w) (stop_sequences w)
     +:+ (created_by +:+ option_ w) in
   result_messages (App.run ua w ss fs)
   = Some (base_messages w ss
           ++ [Message "user" prompt; Message "assistant" text_a])
   /\ last (trace (result_world (App.run ua w ss fs)))
      = Some (ChatWrite "ai" (Some "🦙") text_a)
   /\ result_messages (Src.run us w ss fs)
      = Some (base_messages w ss
              ++ [Message "user" prompt; Message "assistant" text_s])
   /\ last (trace (result_world (Src.run us w ss fs)))
      = Some (ChatWrite "ai" (Some "🦙") text_s))
  /\ (dispatch (rag_flags (rag_on w)) = Generation ->
      let text_a :=
        App.u_bedrock_textGen ua (option_ w) prompt (max_token w)
          (temperature w) (top_p w) (top_k w) (stop_sequences w)
        +:+ (created_by +:+ option_ w) in
      let text_s :=
        Src.u_bedrock_textGen us (option_ w) prompt (max_token w)
          (temperature w) (top_p w) (top_k w) (stop_sequences w)
        +:+ (created_by +:+ option_ w) in
      result_messages (App.run ua w ss fs)
      = Some (base_messages w ss
              ++ [Message "user" prompt; Message "assistant" text_a])
      /\ last (trace (result_world (App.run ua w ss fs)))
         = Some (ChatWrite "ai" (Some "🦙") text_a)
      /\ result_messages (Src.run us w ss fs)
         = Some (base_messages w ss
                 ++ [Message "user" prompt; Message "assistant" text_s])
      /\ last (trace (result_world (Src.run us w ss fs)))
         = Some (ChatWrite "ai" (Some "🦙") text_s))
  /\ created_by
     = String "010" (String "010" " ✒︎Content created by using: ").
Proof.
  intros Hrun Hprompt. split; [|split; [|done]]; intros Hmode; cbv zeta.
  - rewrite (App_chat_run ua w ss fs Retrieval prompt),
      (Src_chat_run us w ss fs Retrieval prompt) by done.
    cbv zeta. unfold result_messages. cbn [result_world session_state trace].
    rewrite !lookup_insert_eq, !app_assoc, !last_chat_event. done.
  - rewrite (App_chat_run ua w ss fs Generation prompt),
      (Src_chat_run us w ss fs Generation prompt) by done.
    cbv zeta. unfold result_messages. cbn [result_world session_state trace].
    rewrite !lookup_insert_eq, !app_assoc, !last_chat_event. done.
Qed.

Lemma C5_witness :
  result_messages (App.run App_sample sample_chat ∅ ∅)
  = Some (base_messages sample_chat ∅
          ++ [Message "user" "hello";
              Message "assistant"
                (App.u_bedrock_textGen App_sample (option_ sample_chat)
                   "hello" (max_token sample_chat) (temperature sample_chat)
                   (top_p sample_chat) (top_k sample_chat)
                   (stop_sequences sample_chat)
                 +:+ (created_by +:+ option_ sample_chat))])
  /\ last (trace (result_world (App.run App_sample sample_chat ∅ ∅)))
     = Some (ChatWrite "ai" (Some "🦙")
               (App.u_bedrock_textGen App_sample (option_ sample_chat)
                  "hello" (max_token sample_chat) (temperature sample_chat)
                  (top_p sample_chat) (top_k sample_chat)
                  (stop_sequences sample_chat)
                +:+ (created_by +:+ option_ sample_chat))).
Proof.
  assert (Hrun : clear_chat_history sample_chat = true ->
                 is_Some ((∅ : gmap string (list message)) !! "messages"))
    by intros [=].
  assert (Hprompt : truthy (chat_input sample_chat) = Some "hello")
    by reflexivity.
  assert (Hmode : dispatch (rag_flags (rag_on sample_chat)) = Generation)
    by reflexivity.
  pose proof (proj1 (proj2 (C5_reply_names_model App_sample Src_sample
                              sample_chat ∅ ∅ "hello" Hrun Hprompt)) Hmode)
    as (Hmsg & Hlast & _).
  exact (conj Hmsg Hlast).
Defined.

(** C6: pressing 'Clear Chat History' sets [st.session_state["messages"]]
    to the one-element list holding the assistant's greeting, whatever the
    history was: the button code leaves exactly that list (and touches no
    other key, file or output), the branches then start from it, and the
    history a run ends with does not depend on the history before. *)
Theorem C6_clear_resets_history ua us w
    (ss : gmap string (list message)) fs tr prior :
  clear_chat_history w = true ->
  ss !! "messages" = Some prior ->
  clear_button w (World ss fs tr)
  = Ok tt (World (<["messages" :=
                     [Message "assistant"
                        "I am your assistant. How can I help today?"]]> ss)
                 fs tr)
  /\ base_messages w ss
     = [Message "assistant" "I am your assistant. How can I help today?"]
  /\ (forall prior',
        result_messages (App.run ua w (<["messages" := prior']> ss) fs)
        = result_messages (App.run ua w ss fs)
        /\ result_messages (Src.run us w (<["messages" := prior']> ss) fs)
           = result_messages (Src.run us w ss fs)).
Proof.
  intros Hclear Hprior.
  assert (Hbase : forall ss' : gmap string (list message),
             base_messages w ss' = greeting)
    by (intros ss'; unfold base_messages; by rewrite Hclear).
  split; [|split].
  - rewrite (clear_button_run _ _ _ _ prior Hprior). by rewrite Hbase.
  - apply Hbase.
  - intros prior'.
    assert (Hrun : clear_chat_history w = true -> is_Some (ss !! "messages"))
      by (rewrite Hprior; eauto).
    assert (Hrun' : clear_chat_history w = true ->
                    is_Some (<["messages" := prior']> ss !! "messages"))
      by (rewrite lookup_insert_eq; eauto).
    rewrite !App_run_messages, !Src_run_messages by done.
    by rewrite !Hbase.
Qed.

Lemma C6_witness :
  clear_button (sample_widgets "None" [] true None)
    (World sample_history ∅ [])
  = Ok tt (World (<["messages" :=
                     [Message "assistant"
                        "I am your assistant. How can I help today?"]]>
                    sample_history) ∅ []).
Proof.
  refine (proj1 (C6_clear_resets_history App_sample Src_sample
                   (sample_widgets "None" [] true None) sample_history ∅ []
                   (greeting ++ [Message "user" "hello";
                                 Message "assistant" "hi"]) _ _)).
  - reflexivity.
  - vm_compute. reflexivity.
Defined.

(** ** Calls with their results *)

Lemma called_app t1 t2 : called (t1 ++ t2) = called t1 ++ called t2.
Proof. apply omap_app. Qed.

Lemma called_history ms : called (history_events ms) = [].
Proof. by apply omap_map_None. Qed.

Lemma App_called_handler u w h :
  called (App.handler_events u w h)
  = match h with
    | UpdateKB =>
        [(call_bedrock_kb_injection [],
          RTuple [(App.u_bedrock_kb_injection u).1;
                  (App.u_bedrock_kb_injection u).2])]
    | _ => match truthy (chat_input w) with
           | Some prompt =>
               [(App.chat_call w h prompt,
                 RStr (App.chat_reply u w h prompt))]
           | None => []
           end
    end.
Proof.
  unfold App.handler_events. by destruct h, (truthy (chat_input w)).
Qed.

Lemma Src_called_handler u w h fs :
  called (Src.handler_events u w h fs)
  = match h with
    | UpdateKB =>
        match upload_docs w with
        | [] => []
        | _ :: _ =>
            let r := Src.u_bedrock_kb_injection u Src.file_path
                       (Src.staged u w fs) in
            [(call_empty_directory Src.file_path, RNone);
             (call_bedrock_kb_injection [Src.file_path],
              RTuple [r.1.1; r.1.2; r.2])]
        end
    | _ => match truthy (chat_input w) with
           | Some prompt =>
               [(Src.chat_call w h prompt,
                 RStr (Src.chat_reply u w h prompt))]
           | None => []
           end
    end.
Proof.
  unfold Src.handler_events.
  destruct h, (truthy (chat_input w)), (upload_docs w) as [|d docs];
    try done.
  all: cbn; rewrite called_app; unfold called at 1;
    by rewrite omap_map_None.
Qed.

Lemma App_run_called u w (ss : gmap string (list message)) fs :
  called (trace (result_world (App.run u w ss fs)))
  = called (App.config_events u)
    ++ if clear_raises w ss then []
       else called (App.handler_events u w (dispatch (rag_flags (rag_on w)))).
Proof.
  rewrite App_run_trace, called_app. f_equal.
  destruct (clear_raises w ss); [done|].
  by rewrite called_app, called_history.
Qed.

Lemma Src_run_called u w (ss : gmap string (list message)) fs :
  called (trace (result_world (Src.run u w ss fs)))
  = called (Src.config_events u)
    ++ if clear_raises w ss then []
       else called (Src.handler_events u w (dispatch (rag_flags (rag_on w)))
                      fs).
Proof.
  rewrite Src_run_trace, called_app. f_equal.
  destruct (clear_raises w ss); [done|].
  by rewrite called_app, called_history.
Qed.

(** The shape of every [bedrock_textGen] call, for either variant: the
    lists [cfg] and [evs] stand for the calls before the branch and in
    it. *)
Lemma textGen_call_shape w (cfg evs : list (call * retval))
    (f : string -> string -> Z -> Q -> Q -> Z -> string -> string)
    model prompt mt t tp tk st r :
  Forall (fun cr => helper_name cr.1 <> "bedrock_textGen") cfg ->
  (forall cr, cr ∈ evs -> helper_name cr.1 = "bedrock_textGen" ->
     exists p, truthy (chat_input w) = Some p
               /\ dispatch (rag_flags (rag_on w)) = Generation
               /\ cr = (call_bedrock_textGen (option_ w) p (max_token w)
                          (temperature w) (top_p w) (top_k w)
                          (stop_sequences w),
                        RStr (f (option_ w) p (max_token w) (temperature w)
                                (top_p w) (top_k w) (stop_sequences w)))) ->
  (call_bedrock_textGen model prompt mt t tp tk st, r) ∈ cfg ++ evs ->
  dispatch (rag_flags (rag_on w)) = Generation
  /\ truthy (chat_input w) = Some prompt
  /\ model = option_ w /\ mt = max_token w /\ t = temperature w
  /\ tp = top_p w /\ tk = top_k w /\ st = stop_sequences w
  /\ r = RStr (f model prompt mt t tp tk st).
Proof.
  intros Hcfg Hevs [Hin|Hin]%elem_of_app.
  - by destruct (proj1 (Forall_forall _ _) Hcfg _ Hin).
  - destruct (Hevs _ Hin eq_refl) as (p & Hp & Hmode & [= -> -> -> -> -> -> -> ->]).
    by repeat split.
Qed.

(** C7: every call of [bedrock_textGen], in either variant, happens in
    generation mode and receives the sidebar's values in this order: the
    selected model id, the prompt, [max_token], [temperature], [top_p],
    [top_k], [stop_sequences]; with what the widgets guarantee, the
    arguments satisfy 0 <= temperature <= 1, max_token >= 0,
    top_p >= 0.1 and top_k >= 1. *)
Theorem C7_textGen_receives_config ua us w
    (ss : gmap string (list message)) fs model prompt mt t tp tk st r :
  widget_contract w ->
  ((call_bedrock_textGen model prompt mt t tp tk st, r)
     ∈ called (trace (result_world (App.run ua w ss fs))) ->
   dispatch (rag_flags (rag_on w)) = Generation
   /\ truthy (chat_input w) = Some prompt
   /\ model = option_ w /\ mt = max_token w /\ t = temperature w
   /\ tp = top_p w /\ tk = top_k w /\ st = stop_sequences w
   /\ r = RStr (App.u_bedrock_textGen ua model prompt mt t tp tk st)
   /\ (0 <= t)%Q /\ (t <= 1)%Q /\ (0 <= mt)%Z /\ (1 # 10 <= tp)%Q
   /\ (1 <= tk)%Z)
  /\ ((call_bedrock_textGen model prompt mt t tp tk st, r)
        ∈ called (trace (result_world (Src.run us w ss fs))) ->
      dispatch (rag_flags (rag_on w)) = Generation
      /\ truthy (chat_input w) = Some prompt
      /\ model = option_ w /\ mt = max_token w /\ t = temperature w
      /\ tp = top_p w /\ tk = top_k w /\ st = stop_sequences w
      /\ r = RStr (Src.u_bedrock_textGen us model prompt mt t tp tk st)
      /\ (0 <= t)%Q /\ (t <= 1)%Q /\ (0 <= mt)%Z /\ (1 # 10 <= tp)%Q
      /\ (1 <= tk)%Z).
Proof.
  intros [_ Ht0 Ht1 Hmt Htp Htk]. split; intros Hin.
  - rewrite App_run_called, App_called_handler in Hin.
    eapply (textGen_call_shape w _ _ (App.u_bedrock_textGen ua)) in Hin.
    + destruct Hin as (Hmode & Hp & -> & -> & -> & -> & -> & -> & Hr).
      by repeat split.
    + by repeat constructor.
    + intros cr Hcr Hname.
      destruct (clear_raises w ss); [by apply elem_of_nil in Hcr|].
      destruct (dispatch (rag_flags (rag_on w)));
        [apply list_elem_of_singleton in Hcr as ->; discriminate|..];
        (destruct (truthy (chat_input w)) as [p|];
           [|by apply elem_of_nil in Hcr]);
        apply list_elem_of_singleton in Hcr as ->; [discriminate|].
      by exists p.
  - rewrite Src_run_called, Src_called_handler in Hin.
    eapply (textGen_call_shape w _ _ (Src.u_bedrock_textGen us)) in Hin.
    + destruct Hin as (Hmode & Hp & -> & -> & -> & -> & -> & -> & Hr).
      by repeat split.
    + by repeat constructor.
    + intros cr Hcr Hname.
      destruct (clear_raises w ss); [by apply elem_of_nil in Hcr|].
      destruct (dispatch (rag_flags (rag_on w))).
      * destruct (upload_docs w); [by apply elem_of_nil in Hcr|].
        cbv zeta in Hcr.
        repeat (apply elem_of_cons in Hcr as [->|Hcr]; [discriminate|]).
        by apply elem_of_nil in Hcr.
      * destruct (truthy (chat_input w)) as [p|];
          [|by apply elem_of_nil in Hcr].
        apply list_elem_of_singleton in Hcr as ->. discriminate.
      * destruct (truthy (chat_input w)) as [p|];
          [|by apply elem_of_nil in Hcr].
        apply list_elem_of_singleton in Hcr as ->. by exists p.
Qed.

Lemma C7_witness :
  dispatch (rag_flags (rag_on sample_chat)) = Generation
  /\ truthy (chat_input sample_chat) = Some "hello"
  /\ "anthropic.claude-3-haiku-20240307-v1:0" = option_ sample_chat
  /\ 1024%Z = max_token sample_chat /\ 1 # 10 = temperature sample_chat
  /\ 85 # 100 = top_p sample_chat /\ 40%Z = top_k sample_chat
  /\ nl +:+ nl +:+ "Human" = stop_sequences sample_chat
  /\ RStr "echo: hello"
     = RStr (App.u_bedrock_textGen App_sample
               "anthropic.claude-3-haiku-20240307-v1:0" "hello" 1024
               (1 # 10) (85 # 100) 40 (nl +:+ nl +:+ "Human"))
  /\ (0 <= 1 # 10)%Q /\ (1 # 10 <= 1)%Q /\ (0 <= 1024)%Z
  /\ (1 # 10 <= 85 # 100)%Q /\ (1 <= 40)%Z.
Proof.
  refine (proj1 (C7_textGen_receives_config App_sample Src_sample
                   sample_chat ∅ ∅ "anthropic.claude-3-haiku-20240307-v1:0"
                   "hello" 1024 (1 # 10) (85 # 100) 40
                   (nl +:+ nl +:+ "Human") (RStr "echo: hello") _) _).
  - split; [cbn; in_list|by vm_compute..].
  - assert (Hcalled :
      called (trace (result_world (App.run App_sample sample_chat ∅ ∅)))
      = [(call_read_key_value "./.aoss_config.txt" "AOSS_host_name",
          RStr "AOSS_host_name");
         (call_read_key_value "./.aoss_config.txt" "AOSS_index_name",
          RStr "AOSS_index_name");
         (call_bedrock_textGen "anthropic.claude-3-haiku-20240307-v1:0"
            "hello" 1024 (1 # 10) (85 # 100) 40 (nl +:+ nl +:+ "Human"),
          RStr "echo: hello")]) by (vm_compute; reflexivity).
    rewrite Hcalled. in_list.
Defined.

(** ** Counting calls *)

Ltac not_in_list :=
  let H := fresh "Hin" in
  intros H;
  repeat (apply elem_of_cons in H as [H|H]; [discriminate H|]);
  by apply elem_of_nil in H.

Ltac distinct_calls :=
  repeat (apply NoDup_cons; split; [not_in_list|]); apply NoDup_nil_2.

(** C8: no retry.  In a run of either variant no call is made twice
    (the two [read_key_value] calls ask for different keys), each helper
    that reaches the service or the data directory is called at most
    once, and a submitted prompt causes exactly one call of
    [bedrock_kb_retrieval] ([src/app]) or [bedrock_kb_retrieval_advanced]
    ([src/src]) in retrieval mode and exactly one call of
    [bedrock_textGen] in generation mode, whatever the helpers return. *)
Theorem C8_no_retry ua us w (ss : gmap string (list message)) fs :
  NoDup (calls (trace (result_world (App.run ua w ss fs))))
  /\ NoDup (calls (trace (result_world (Src.run us w ss fs))))
  /\ (forall name, name ∈ remote_helpers ->
        call_count name (trace (result_world (App.run ua w ss fs))) <= 1
        /\ call_count name (trace (result_world (Src.run us w ss fs))) <= 1)
  /\ (forall prompt,
        (clear_chat_history w = true -> is_Some (ss !! "messages")) ->
        truthy (chat_input w) = Some prompt ->
        (dispatch (rag_flags (rag_on w)) = Retrieval ->
         call_count "bedrock_kb_retrieval"
           (trace (result_world (App.run ua w ss fs))) = 1
         /\ call_count "bedrock_kb_retrieval_advanced"
              (trace (result_world (Src.run us w ss fs))) = 1
         /\ call_count "bedrock_textGen"
              (trace (result_world (App.run ua w ss fs))) = 0
         /\ call_count "bedrock_textGen"
              (trace (result_world (Src.run us w ss fs))) = 0)
        /\ (dispatch (rag_flags (rag_on w)) = Generation ->
            call_count "bedrock_textGen"
              (trace (result_world (App.run ua w ss fs))) = 1
            /\ call_count "bedrock_textGen"
                 (trace (result_world (Src.run us w ss fs))) = 1
            /\ call_count "bedrock_kb_retrieval"
                 (trace (result_world (App.run ua w ss fs))) = 0
            /\ call_count "bedrock_kb_retrieval_advanced"
                 (trace (result_world (Src.run us w ss fs))) = 0)).
Proof.
  unfold call_count.
  rewrite App_run_calls, Src_run_calls, App_calls_handler, Src_calls_handler.
  split; [|split; [|split]].
  - destruct (clear_raises w ss), (dispatch (rag_flags (rag_on w))),
      (truthy (chat_input w)); cbn; distinct_calls.
  - destruct (clear_raises w ss), (dispatch (rag_flags (rag_on w))),
      (truthy (chat_input w)), (upload_docs w); cbn; distinct_calls.
  - intros name Hname. unfold remote_helpers in Hname.
    repeat (apply elem_of_cons in Hname as [->|Hname]);
      [..|by apply elem_of_nil in Hname];
      destruct (clear_raises w ss), (dispatch (rag_flags (rag_on w))),
        (truthy (chat_input w)), (upload_docs w); vm_compute; lia.
  - intros prompt Hrun Hprompt.
    destruct (clear_raises_cases w ss) as [[-> _]|(_ & Hclear & Hms)].
    + rewrite Hprompt. split; intros ->; by vm_compute.
    + destruct (Hrun Hclear) as [ms Hms']. congruence.
Qed.

Lemma C8_witness :
  call_count "bedrock_textGen"
    (trace (result_world (App.run App_sample sample_chat ∅ ∅))) = 1
  /\ call_count "bedrock_textGen"
       (trace (result_world (Src.run Src_sample sample_chat ∅ ∅))) = 1
  /\ call_count "bedrock_kb_retrieval"
       (trace (result_world (App.run App_sample sample_chat ∅ ∅))) = 0
  /\ call_count "bedrock_kb_retrieval_advanced"
       (trace (result_world (Src.run Src_sample sample_chat ∅ ∅))) = 0.
Proof.
  refine (proj2 (proj2 (proj2 (proj2
            (C8_no_retry App_sample Src_sample sample_chat ∅ ∅)))
            "hello" _ _) _).
  - intros [=].
  - reflexivity.
  - reflexivity.
Defined.

(** ** What a run depends on *)




(** ** Update mode without an upload *)

(** C10: in [src/src], with the slider on 'Update' and an empty upload
    list, the update branch does nothing: it leaves session state and
    files as they are and calls neither [empty_directory] nor
    [bedrock_kb_injection], so a run appends no message and writes no
    file; [src/app] calls [bedrock_kb_injection] in update mode whatever
    was uploaded. *)
Theorem C10_update_without_upload_is_noop ua us w
    (ss : gmap string (list message)) fs :
  dispatch (rag_flags (rag_on w)) = UpdateKB ->
  (clear_chat_history w = true -> is_Some (ss !! "messages")) ->
  (upload_docs w = [] ->
   (forall ss0 fs0 tr0,
      Src.update_handler us w (World ss0 fs0 tr0)
      = Ok tt (World ss0 fs0 (tr0 ++ [Enter UpdateKB])))
   /\ exists W,
        Src.run us w ss fs = Ok tt W
        /\ session_state W !! "messages" = Some (base_messages w ss)
        /\ (forall key, key <> "messages" ->
                        session_state W !! key = ss !! key)
        /\ files W = fs
        /\ file_writes (trace W) = []
        /\ call_count "empty_directory" (trace W) = 0
        /\ call_count "bedrock_kb_injection" (trace W) = 0)
  /\ call_count "bedrock_kb_injection"
       (trace (result_world (App.run ua w ss fs))) = 1.
Proof.
  intros Hmode Hrun. split.
  - intros Hdocs. split.
    + intros ss0 fs0 tr0. unfold Src.update_handler. rewrite Hdocs.
      by unfold_page.
    + rewrite Src_run_ok by done. cbv zeta. rewrite Hmode.
      unfold Src.handler_messages, Src.handler_files, Src.handler_events.
      rewrite Hdocs, app_nil_r. eexists. split; [reflexivity|].
      cbn [session_state files trace]. repeat split.
      * apply lookup_insert_eq.
      * intros key Hkey. by apply lookup_insert_ne.
      * rewrite !file_writes_app, file_writes_history. done.
      * unfold call_count. by rewrite !calls_app, calls_history.
      * unfold call_count. by rewrite !calls_app, calls_history.
  - unfold call_count. rewrite App_run_calls, App_calls_handler, Hmode.
    destruct (clear_raises_cases w ss) as [[-> _]|(_ & Hclear & Hms)].
    + by vm_compute.
    + destruct (Hrun Hclear) as [ms Hms']. congruence.
Qed.

Lemma C10_witness :
  (exists W,
     Src.run Src_sample sample_update sample_history ∅ = Ok tt W
     /\ session_state W !! "messages"
        = Some (base_messages sample_update sample_history)
     /\ (forall key, key <> "messages" ->
                     session_state W !! key = sample_history !! key)
     /\ files W = ∅
     /\ file_writes (trace W) = []
     /\ call_count "empty_directory" (trace W) = 0
     /\ call_count "bedrock_kb_injection" (trace W) = 0)
  /\ call_count "bedrock_kb_injection"
       (trace (result_world
                 (App.run App_sample sample_update sample_history ∅))) = 1.
Proof.
  assert (Hmode : dispatch (rag_flags (rag_on sample_update)) = UpdateKB)
    by reflexivity.
  assert (Hrun : clear_chat_history sample_update = true ->
                 is_Some (sample_history !! "messages")) by intros [=].
  destruct (C10_update_without_upload_is_noop App_sample Src_sample
              sample_update sample_history ∅ Hmode Hrun) as [Hsrc Happ].
  exact (conj (proj2 (Hsrc eq_refl)) Happ).
Defined.

(** * Further properties of the page *)

Lemma written_app t1 t2 : written (t1 ++ t2) = written t1 ++ written t2.
Proof. apply omap_app. Qed.

Lemma written_history ms : written (history_events ms) = map content ms.
Proof. by apply omap_map_Some. Qed.





(** ** The shape of the history *)












(** ** What is on screen *)

Lemma App_written_handler u w h :
  written (App.handler_events u w h)
  = map content (App.handler_messages u w h).
Proof.
  unfold App.handler_events, App.handler_messages.
  by destruct h, (truthy (chat_input w)).
Qed.

Lemma Src_written_handler u w h fs :
  written (Src.handler_events u w h fs)
  = map content (Src.handler_messages u w h fs).
Proof.
  unfold Src.handler_events, Src.handler_messages.
  destruct h, (truthy (chat_input w)), (upload_docs w) as [|d docs];
    try done.
  all: cbn; rewrite written_app; unfold written at 1;
    by rewrite omap_map_None.
Qed.

(** X4: when a run completes, the texts it has written to the chat, in
    order, are exactly the contents of the messages it leaves in session
    state: the stored history is replayed first and every message a
    branch appends is also written, so screen and history agree. *)
Theorem X4_screen_shows_history ua us w
    (ss : gmap string (list message)) fs :
  (clear_chat_history w = true -> is_Some (ss !! "messages")) ->
  (exists W ms,
     App.run ua w ss fs = Ok tt W
     /\ session_state W !! "messages" = Some ms
     /\ written (trace W) = map content ms)
  /\ (exists W ms,
        Src.run us w ss fs = Ok tt W
        /\ session_state W !! "messages" = Some ms
        /\ written (trace W) = map content ms).
Proof.
  intros Hrun. rewrite App_run_ok, Src_run_ok by done. cbv zeta.
  split; do 2 eexists; (split; [reflexivity|]);
    (split; [apply lookup_insert_eq|]);
    cbn [trace]; rewrite !written_app, written_history, map_app.
  - by rewrite App_written_handler.
  - by rewrite Src_written_handler.
Qed.

Lemma X4_witness :
  (exists W ms,
     App.run App_sample sample_chat sample_history ∅ = Ok tt W
     /\ session_state W !! "messages" = Some ms
     /\ written (trace W) = map content ms)
  /\ (exists W ms,
        Src.run Src_sample sample_chat sample_history ∅ = Ok tt W
        /\ session_state W !! "messages" = Some ms
        /\ written (trace W) = map content ms).
Proof.
  refine (X4_screen_shows_history App_sample Src_sample sample_chat
            sample_history ∅ _).
  intros [=].
Defined.

(** ** Reruns without input, and what a run leaves alone *)

(** X5: a rerun without input (button not pressed, slider not on
    'Update', chat box empty or holding the empty string) changes
    nothing: session state and files are as before, the stored history is
    replayed on screen, and the only helper calls are the two
    configuration reads. *)
Theorem X5_rerun_without_input_changes_nothing ua us w
    (ss : gmap string (list message)) fs ms :
  clear_chat_history w = false ->
  ss !! "messages" = Some ms ->
  dispatch (rag_flags (rag_on w)) <> UpdateKB ->
  chat_input w = None \/ chat_input w = Some "" ->
  (exists W,
     App.run ua w ss fs = Ok tt W
     /\ session_state W = ss /\ files W = fs
     /\ written (trace W) = map content ms
     /\ calls (trace W)
        = [call_read_key_value "./.aoss_config.txt" "AOSS_host_name";
           call_read_key_value "./.aoss_config.txt" "AOSS_index_name"])
  /\ (exists W,
        Src.run us w ss fs = Ok tt W
        /\ session_state W = ss /\ files W = fs
        /\ written (trace W) = map content ms
        /\ calls (trace W)
           = [call_read_key_value ".aoss_config.txt" "AOSS_host_name";
              call_read_key_value ".aoss_config.txt" "AOSS_index_name"]).
Proof.
  intros Hclear Hms Hmode Hprompt.
  assert (Htruthy : truthy (chat_input w) = None)
    by (by destruct Hprompt as [-> | ->]).
  assert (Hbase : base_messages w ss = ms)
    by (unfold base_messages; by rewrite Hclear, Hms).
  rewrite App_run_ok, Src_run_ok by (by rewrite Hclear). cbv zeta.
  unfold App.handler_messages, App.handler_events, Src.handler_messages,
    Src.handler_events, Src.handler_files.
  rewrite Hbase, Htruthy.
  destruct (dispatch (rag_flags (rag_on w))); [done|..];
    rewrite app_nil_r, (insert_id ss "messages" ms Hms).
  all: destruct (upload_docs w).
  all: split; eexists; (split; [reflexivity|]); cbn [session_state files trace].
  all: repeat split.
  all: rewrite ?written_app, ?written_history, ?calls_app, ?calls_history.
  all: try done.
  all: change (written (App.config_events ua)) with (@nil string).
  all: change (written (Src.config_events us)) with (@nil string).
  all: by rewrite app_nil_l, app_nil_r.
Qed.

Lemma X5_witness :
  (exists W,
     App.run App_sample (sample_widgets "Retrieval" [] false (Some ""))
       sample_history ∅ = Ok tt W
     /\ session_state W = sample_history /\ files W = ∅
     /\ written (trace W)
        = map content (greeting ++ [Message "user" "hello";
                                    Message "assistant" "hi"])
     /\ calls (trace W)
        = [call_read_key_value "./.aoss_config.txt" "AOSS_host_name";
           call_read_key_value "./.aoss_config.txt" "AOSS_index_name"])
  /\ (exists W,
        Src.run Src_sample (sample_widgets "Retrieval" [] false (Some ""))
          sample_history ∅ = Ok tt W
        /\ session_state W = sample_history /\ files W = ∅
        /\ written (trace W)
           = map content (greeting ++ [Message "user" "hello";
                                       Message "assistant" "hi"])
        /\ calls (trace W)
           = [call_read_key_value ".aoss_config.txt" "AOSS_host_name";
              call_read_key_value ".aoss_config.txt" "AOSS_index_name"]).
Proof.
  refine (X5_rerun_without_input_changes_nothing App_sample Src_sample
            (sample_widgets "Retrieval" [] false (Some "")) sample_history ∅
            (greeting ++ [Message "user" "hello"; Message "assistant" "hi"])
            _ _ _ _).
  - reflexivity.
  - vm_compute. reflexivity.
  - intros [=].
  - by right.
Defined.



(** ** Staging uploads *)






(** ** Retrieval calls *)

Ltac no_such_call H :=
  repeat (apply elem_of_cons in H as [H|H]; [discriminate H|]);
  by apply elem_of_nil in H.

(** X8: a retrieval helper is only ever called in retrieval mode and on
    a submitted prompt.  [src/app] calls [bedrock_kb_retrieval(prompt,
    option)]; [src/src] calls [bedrock_kb_retrieval_advanced(prompt,
    option, max_token, temperature, top_p, top_k, stop_sequences)], the
    prompt first and the model id second, the reverse of
    [bedrock_textGen]. *)
Theorem X8_retrieval_receives_prompt_then_model ua us w
    (ss : gmap string (list message)) fs prompt model mt t tp tk st r :
  ((call_bedrock_kb_retrieval prompt model, r)
     ∈ called (trace (result_world (App.run ua w ss fs))) ->
   dispatch (rag_flags (rag_on w)) = Retrieval
   /\ truthy (chat_input w) = Some prompt
   /\ model = option_ w
   /\ r = RStr (App.u_bedrock_kb_retrieval ua prompt model))
  /\ ((call_bedrock_kb_retrieval_advanced prompt model mt t tp tk st, r)
        ∈ called (trace (result_world (Src.run us w ss fs))) ->
      dispatch (rag_flags (rag_on w)) = Retrieval
      /\ truthy (chat_input w) = Some prompt
      /\ model = option_ w /\ mt = max_token w /\ t = temperature w
      /\ tp = top_p w /\ tk = top_k w /\ st = stop_sequences w
      /\ r = RStr (Src.u_bedrock_kb_retrieval_advanced us prompt model mt t
                     tp tk st)).
Proof.
  split; intros Hin.
  - rewrite App_run_called, App_called_handler in Hin.
    apply elem_of_app in Hin as [Hin|Hin]; [cbn in Hin; no_such_call Hin|].
    destruct (clear_raises w ss); [by apply elem_of_nil in Hin|].
    destruct (dispatch (rag_flags (rag_on w))); [no_such_call Hin|..];
      (destruct (truthy (chat_input w)) as [p|];
         [|by apply elem_of_nil in Hin]);
      apply list_elem_of_singleton in Hin; [|discriminate Hin].
    by injection Hin as -> -> ->.
  - rewrite Src_run_called, Src_called_handler in Hin.
    apply elem_of_app in Hin as [Hin|Hin]; [cbn in Hin; no_such_call Hin|].
    destruct (clear_raises w ss); [by apply elem_of_nil in Hin|].
    destruct (dispatch (rag_flags (rag_on w))).
    + destruct (upload_docs w); [by apply elem_of_nil in Hin|].
      cbv zeta in Hin. no_such_call Hin.
    + destruct (truthy (chat_input w)) as [p|];
        [|by apply elem_of_nil in Hin].
      apply list_elem_of_singleton in Hin.
      by injection Hin as -> -> -> -> -> -> -> ->.
    + destruct (truthy (chat_input w)) as [p|];
        [|by apply elem_of_nil in Hin].
      apply list_elem_of_singleton in Hin. discriminate Hin.
Qed.

Lemma X8_witness :
  dispatch (rag_flags
              (rag_on (sample_widgets "Retrieval" [] false (Some "hello"))))
  = Retrieval
  /\ truthy (chat_input (sample_widgets "Retrieval" [] false (Some "hello")))
     = Some "hello"
  /\ "anthropic.claude-3-haiku-20240307-v1:0"
     = option_ (sample_widgets "Retrieval" [] false (Some "hello"))
  /\ RStr "found: hello"
     = RStr (App.u_bedrock_kb_retrieval App_sample "hello"
               "anthropic.claude-3-haiku-20240307-v1:0").
Proof.
  refine (proj1 (X8_retrieval_receives_prompt_then_model App_sample
                   Src_sample
                   (sample_widgets "Retrieval" [] false (Some "hello")) ∅ ∅
                   "hello" "anthropic.claude-3-haiku-20240307-v1:0"
                   0%Z 0%Q 0%Q 0%Z "" (RStr "found: hello")) _).
  assert (Hcalled :
    called (trace (result_world
              (App.run App_sample
                 (sample_widgets "Retrieval" [] false (Some "hello")) ∅ ∅)))
    = [(call_read_key_value "./.aoss_config.txt" "AOSS_host_name",
        RStr "AOSS_host_name");
       (call_read_key_value "./.aoss_config.txt" "AOSS_index_name",
        RStr "AOSS_index_name");
       (call_bedrock_kb_retrieval "hello"
          "anthropic.claude-3-haiku-20240307-v1:0",
        RStr "found: hello")]) by (vm_compute; reflexivity).
  rewrite Hcalled. in_list.
Defined.

(** ** The configuration reads *)

(** X9: the two values read from the configuration file ([aoss_host],
    [aoss_index]) are used nowhere: with the other helpers unchanged,
    whatever [read_key_value] returns, a run leaves the same session
    state and files and does the same after the two reads. *)
Theorem X9_config_values_unused ua ua' us us' w
    (ss : gmap string (list message)) fs :
  (App.u_bedrock_kb_injection ua = App.u_bedrock_kb_injection ua' ->
   App.u_bedrock_kb_retrieval ua = App.u_bedrock_kb_retrieval ua' ->
   App.u_bedrock_textGen ua = App.u_bedrock_textGen ua' ->
   session_state (result_world (App.run ua w ss fs))
   = session_state (result_world (App.run ua' w ss fs))
   /\ files (result_world (App.run ua w ss fs))
      = files (result_world (App.run ua' w ss fs))
   /\ drop 2 (trace (result_world (App.run ua w ss fs)))
      = drop 2 (trace (result_world (App.run ua' w ss fs))))
  /\ (Src.u_empty_directory us = Src.u_empty_directory us' ->
      Src.u_bedrock_kb_injection us = Src.u_bedrock_kb_injection us' ->
      Src.u_bedrock_kb_retrieval_advanced us
      = Src.u_bedrock_kb_retrieval_advanced us' ->
      Src.u_bedrock_textGen us = Src.u_bedrock_textGen us' ->
      session_state (result_world (Src.run us w ss fs))
      = session_state (result_world (Src.run us' w ss fs))
      /\ files (result_world (Src.run us w ss fs))
         = files (result_world (Src.run us' w ss fs))
      /\ drop 2 (trace (result_world (Src.run us w ss fs)))
         = drop 2 (trace (result_world (Src.run us' w ss fs)))).
Proof.
  split.
  - destruct ua as [rkv inj ret gen], ua' as [rkv' inj' ret' gen'].
    cbn [App.u_bedrock_kb_injection App.u_bedrock_kb_retrieval
         App.u_bedrock_textGen]. intros -> -> ->.
    destruct (clear_raises_cases w ss) as [[_ Hrun]|(_ & Hclear & Hms)].
    + by rewrite !App_run_ok by done.
    + by rewrite !App_run_raise by done.
  - destruct us as [rkv emp inj ret gen], us' as [rkv' emp' inj' ret' gen'].
    cbn [Src.u_empty_directory Src.u_bedrock_kb_injection
         Src.u_bedrock_kb_retrieval_advanced Src.u_bedrock_textGen].
    intros -> -> -> ->.
    destruct (clear_raises_cases w ss) as [[_ Hrun]|(_ & Hclear & Hms)].
    + by rewrite !Src_run_ok by done.
    + by rewrite !Src_run_raise by done.
Qed.

Lemma X9_witness :
  session_state (result_world (App.run App_sample sample_chat ∅ ∅))
  = session_state (result_world (App.run App_sample_config sample_chat ∅ ∅))
  /\ files (result_world (App.run App_sample sample_chat ∅ ∅))
     = files (result_world (App.run App_sample_config sample_chat ∅ ∅))
  /\ drop 2 (trace (result_world (App.run App_sample sample_chat ∅ ∅)))
     = drop 2 (trace (result_world
                        (App.run App_sample_config sample_chat ∅ ∅))).
Proof.
  refine (proj1 (X9_config_values_unused App_sample App_sample_config
                   Src_sample Src_sample sample_chat ∅ ∅) _ _ _);
    reflexivity.
Defined.

(** ** The generation branch in the two variants *)

(** X10: the generation branch is the same code in both variants: when
    [bedrock_textGen] answers alike, the two branches started on the
    same world end alike in every respect (result or exception, session
    state, files, and the whole trace of calls and chat output), also
    when 'messages' is missing and the append raises. *)
Theorem X10_generation_branch_same ua us w W :
  (forall model prompt mt t tp tk st,
     App.u_bedrock_textGen ua model prompt mt t tp tk st
     = Src.u_bedrock_textGen us model prompt mt t tp tk st) ->
  App.generation_handler ua w W = Src.generation_handler us w W.
Proof.
  intros Hgen. destruct W as [ss fs tr].
  unfold App.generation_handler, Src.generation_handler,
    App.bedrock_textGen, Src.bedrock_textGen.
  destruct (truthy (chat_input w)) as [prompt|]; [|done].
  unfold_page. step.
  destruct (ss !! "messages") as [ms|]; [|done].
  step. by rewrite Hgen.
Qed.

Lemma X10_witness :
  App.generation_handler App_sample sample_chat (World sample_history ∅ [])
  = Src.generation_handler Src_sample sample_chat (World sample_history ∅ []).
Proof.
  refine (X10_generation_branch_same App_sample Src_sample sample_chat
            (World sample_history ∅ []) _).
  intros. reflexivity.
Defined.

(** ** The slider test *)

Lemma prefix_occurs (n h : string) :
  String.prefix n h = true <-> exists post, h = n +:+ post.
Proof.
  revert n. induction h as [|b h IH]; intros [|a n]; cbn.
  - split; [by exists ""|done].
  - split; [done|by intros [post [=]]].
  - split; [by exists (String b h)|done].
  - destruct (ascii_dec a b) as [->|Hne].
    + rewrite IH. split; intros [post Hpost]; exists post.
      * by rewrite Hpost.
      * by injection Hpost.
    + split; [done|]. intros [post [= Hab _]]. by destruct Hne.
Qed.

Lemma str_in_occurs (n h : string) : str_in n h = true <-> occurs n h.
Proof.
  unfold occurs. induction h as [|c h IH]; cbn [str_in].
  - rewrite orb_false_r, prefix_occurs. split.
    + intros [post Hpost]. by exists "", post.
    + intros ([|c pre] & post & Hpost); [by exists post|done].
  - rewrite orb_true_iff, prefix_occurs, IH. split.
    + intros [[post Hpost]|(pre & post & Hpost)].
      * by exists "", post.
      * exists (String c pre), post. cbn. by rewrite Hpost.
    + intros ([|c' pre] & post & Hpost).
      * left. by exists post.
      * right. injection Hpost as _ Hpost. by exists pre, post.
Qed.

(** X11: the slider is tested by substring.  [rag_update] is set exactly
    when 'Update' occurs in the slider value; [rag_retrieval] is set
    exactly when 'Retrieval' occurs in it and 'Update' does not, the
    [elif] giving 'Update' precedence. *)
Theorem X11_flags_follow_substrings (mode : string) :
  ((rag_flags mode).1 = true <-> occurs "Update" mode)
  /\ ((rag_flags mode).2 = true
      <-> occurs "Retrieval" mode /\ ~ occurs "Update" mode).
Proof.
  rewrite <- !str_in_occurs. unfold rag_flags.
  destruct (str_in "Update" mode), (str_in "Retrieval" mode); cbn;
    split; split; try done; try (by intros [_ Hno]; destruct Hno);
    by intros [[=] _].
Qed.

(** ** How much a run adds *)



(** ** The replay of the history *)

Lemma entered_Enter h t : entered (Enter h :: t) = h :: entered t.
Proof. done. Qed.

(** X13: every completed run first replays the history, one chat write
    per stored message, under the stored role, without avatar and in
    order, and only then enters a branch: right after the two
    configuration reads come the writes for the greeting alone when the
    button was pressed or 'messages' was missing, and for the stored
    list otherwise. *)
Theorem X13_replay_precedes_branch ua us w
    (ss : gmap string (list message)) fs :
  (clear_chat_history w = true -> is_Some (ss !! "messages")) ->
  exists Wa Ws rest_a rest_s,
    App.run ua w ss fs = Ok tt Wa
    /\ Src.run us w ss fs = Ok tt Ws
    /\ drop 2 (trace Wa)
       = map (fun m => ChatWrite (role m) None (content m))
             (if clear_chat_history w then greeting
              else default greeting (ss !! "messages"))
         ++ Enter (dispatch (rag_flags (rag_on w))) :: rest_a
    /\ drop 2 (trace Ws)
       = map (fun m => ChatWrite (role m) None (content m))
             (if clear_chat_history w then greeting
              else default greeting (ss !! "messages"))
         ++ Enter (dispatch (rag_flags (rag_on w))) :: rest_s
    /\ entered rest_a = [] /\ entered rest_s = [].
Proof.
  intros Hrun. rewrite App_run_ok, Src_run_ok by done. cbv zeta.
  pose proof (App_entered_handler ua w (dispatch (rag_flags (rag_on w))))
    as Ha.
  pose proof (Src_entered_handler us w (dispatch (rag_flags (rag_on w))) fs)
    as Hs.
  unfold App.handler_events, Src.handler_events in *.
  do 4 eexists. split; [reflexivity|]. split; [reflexivity|].
  cbn [trace]. split; [reflexivity|]. split; [reflexivity|].
  rewrite entered_Enter in Ha, Hs.
  split; [by injection Ha|by injection Hs].
Qed.

Lemma X13_witness :
  exists Wa Ws rest_a rest_s,
    App.run App_sample sample_chat sample_history ∅ = Ok tt Wa
    /\ Src.run Src_sample sample_chat sample_history ∅ = Ok tt Ws
    /\ drop 2 (trace Wa)
       = map (fun m => ChatWrite (role m) None (content m))
             (if clear_chat_history sample_chat then greeting
              else default greeting (sample_history !! "messages"))
         ++ Enter (dispatch (rag_flags (rag_on sample_chat))) :: rest_a
    /\ drop 2 (trace Ws)
       = map (fun m => ChatWrite (role m) None (content m))
             (if clear_chat_history sample_chat then greeting
              else default greeting (sample_history !! "messages"))
         ++ Enter (dispatch (rag_flags (rag_on sample_chat))) :: rest_s
    /\ entered rest_a = [] /\ entered rest_s = [].
Proof.
  refine (X13_replay_precedes_branch App_sample Src_sample sample_chat
            sample_history ∅ _).
  intros [=].
Defined.

(** ** Inputs without effect *)

